(** * otelchi: the request-instrumentation middleware

    A shallow embedding of [config.go] and of the middleware source
    ([Middleware], [getRRW], [putRRW], [ServeHTTP], [addPrefixToSpanName]).

    Go code that mutates objects behind pointers and calls external
    collaborators is written in a small monad [Go] over a [World] that
    holds the recorded calls to the collaborators, the heap of pooled
    response observers, the pool's free list and the host's response
    writer.  A panic is an outcome of the monad, and [defer] runs its
    clean-up on both outcomes. *)

From Stdlib Require Import ZArith Lia.
From stdpp Require Import base option list gmap strings.

(** ** HTTP primitives *)

Abbreviation Header := (gmap string (list string)).

(** [context.Context] values are opaque to the middleware: they are built
    by the host, by the propagator and by the tracer. *)
Inductive TextMapPropagator :=
| GlobalTextMapPropagator
| CustomTextMapPropagator (id : nat).

Inductive Context :=
| HostContext (id : nat)
| ExtractedContext (p : TextMapPropagator) (parent : Context) (carrier : Header)
| ContextWithSpan (parent : Context).

Record Request := mkRequest {
  Method : string;
  URL_Path : string;
  ReqHeader : Header;
  ReqContext : Context
}.

Definition WithContext (r : Request) (ctx : Context) : Request :=
  {| Method := Method r; URL_Path := URL_Path r;
     ReqHeader := ReqHeader r; ReqContext := ctx |}.

(** The host's [http.ResponseWriter], as far as a handler drives it. *)
Record ResponseWriter := mkResponseWriter {
  rw_header : Header;
  rw_status : option Z;
  rw_body : list Byte.byte;
  rw_hijacked : bool;
  rw_pushed : list string
}.

(** What a handler can call on the writer it is given: the three methods
    of [http.ResponseWriter] and the optional ones the host's writer has
    and the wrapper of [httpsnoop.Wrap] therefore exposes as well
    ([io.ReaderFrom], [http.Flusher], [http.Hijacker], [http.Pusher]). *)
Inductive WriterCall :=
| Write (b : list Byte.byte)
| WriteHeader (statusCode : Z)
| HeaderSet (key value : string)
| ReadFrom (b : list Byte.byte)
| Flush
| Hijack
| Push (target : string).

(** One execution of a downstream handler: the calls it makes on its
    writer, whether it then panics, what [chi.RouteContext(r.Context())]
    gives once dispatch is over, and the time the call took.  [routed] is
    [None] when the request's context carries no routing context (the
    middleware runs outside a chi router): [chi.RouteContext] is nil then;
    otherwise it is the pattern [RoutePattern()] reads from it. *)
Record HandlerRun := mkHandlerRun {
  calls : list WriterCall;
  panics : option string;
  routed : option string;
  elapsed : Z
}.

Definition Handler := Request → HandlerRun.

(** [chi.Routes.Match(rctx, method, path)] together with the
    [rctx.RoutePattern()] read after it. *)
Definition Routes := string → string → bool * string.

(** ** Tracing and metrics collaborators *)

Inductive TracerProvider :=
| GlobalTracerProvider
| CustomTracerProvider (id : nat).

Inductive MeterProvider :=
| GlobalMeterProvider
| CustomMeterProvider (id : nat).

Record Tracer := mkTracer {
  tracer_provider : TracerProvider;
  tracer_name : string;
  tracer_version : string
}.

Record Meter := mkMeter {
  meter_provider : MeterProvider;
  meter_name : string;
  meter_version : string
}.

(** Modelled from the spec: the metrics recorder built by
    [newMetricsRecorder] is declared outside the files at hand; it is known
    by the meter it records on and by its three operations, which appear
    below as recorded calls. *)
Record metricsRecorder := mkRecorder { recorder_meter : Meter }.

(** Modelled from the spec: [httpReqProperties] is declared outside the
    files at hand; it is the per-request label set
    {serviceName, routeOrPathIdentifier, method, statusCode}, a struct that
    is passed by value. *)
Record httpReqProperties := mkProps {
  Service : string;
  ID : string;
  PMethod : string;
  Code : Z
}.

Definition set_ID (p : httpReqProperties) (id : string) : httpReqProperties :=
  {| Service := Service p; ID := id; PMethod := PMethod p; Code := Code p |}.

Definition set_Code (p : httpReqProperties) (c : Z) : httpReqProperties :=
  {| Service := Service p; ID := ID p; PMethod := PMethod p; Code := c |}.

(** [codes.Code] of the tracing API. *)
Inductive SpanCode := Unset | Error | Ok.

Inductive SpanKind := SpanKindServer.

Inductive Attributes :=
| NetAttributesFromHTTPRequest (network : string) (r : Request)
| EndUserAttributesFromHTTPRequest (r : Request)
| HTTPServerAttributesFromHTTPRequest (serverName route : string) (r : Request)
| HTTPRouteKey (route : string)
| HTTPStatusCodeKey (code : Z).

Inductive SpanStartOption :=
| WithAttributes (a : Attributes)
| WithSpanKind (k : SpanKind).

(** ** The response observer *)

Inductive Writer :=
| NilWriter
| HostWriter
| Wrapped (inner : Writer) (rrw : nat).

Record recordingResponseWriter := mkRRW {
  writer : Writer;
  written : bool;
  writtenBytes : Z;
  status : Z
}.

Definition StatusOK : Z := 200.

(** Go's [int64] addition. *)
Definition wrap64 (z : Z) : Z :=
  ((z + 2 ^ 63) mod 2 ^ 64 - 2 ^ 63)%Z.

(** ** Recorded calls to the collaborators *)

Inductive Event :=
| RecordRequestsInflight (ctx : Context) (props : httpReqProperties) (delta : Z)
| RecordRequestDuration (ctx : Context) (props : httpReqProperties) (duration : Z)
| RecordResponseSize (ctx : Context) (props : httpReqProperties) (size : Z)
| TracerStart (t : Tracer) (ctx : Context) (spanName : string)
    (opts : list SpanStartOption)
| SpanSetAttributes (a : Attributes)
| SpanSetName (name : string)
| SpanSetStatus (code : SpanCode) (description : string)
| SpanEnd
| HandlerServeHTTP (w : Writer) (r : Request).

Record World := mkWorld {
  events : list Event;
  heap : gmap nat recordingResponseWriter;
  next_loc : nat;
  rrwPool : list nat;
  response : ResponseWriter
}.

(** ** The monad *)

Inductive Outcome (A : Type) :=
| Returned (a : A)
| Panicked (v : string).
Arguments Returned {A} a.
Arguments Panicked {A} v.

Definition Go (A : Type) : Type := World → Outcome A * World.

Definition go_ret {A} (a : A) : Go A := λ w, (Returned a, w).

Definition go_bind {A B} (f : A → Go B) (m : Go A) : Go B :=
  λ w, match m w with
       | (Returned a, w') => f a w'
       | (Panicked v, w') => (Panicked v, w')
       end.

#[global] Instance Go_ret : MRet Go := @go_ret.
#[global] Instance Go_bind : MBind Go := @go_bind.

Definition panic {A} (v : string) : Go A := λ w, (Panicked v, w).

(** [defer cleanup] followed by the rest of the function body: the
    clean-up runs when the body is left, by return or by panic. *)
Definition with_defer {A} (cleanup : Go unit) (body : Go A) : Go A :=
  λ w, match body w with
       | (o, w1) =>
           match cleanup w1 with
           | (Returned _, w2) => (o, w2)
           | (Panicked v, w2) => (Panicked v, w2)
           end
       end.

Notation "'defer' c ;; k" := (with_defer c k)
  (at level 20, c at level 99, k at level 200, only parsing).

Definition emit (e : Event) : Go unit :=
  λ w, (Returned tt,
        {| events := events w ++ [e]; heap := heap w; next_loc := next_loc w;
           rrwPool := rrwPool w; response := response w |}).

Definition deref (l : nat) (w : World) : recordingResponseWriter :=
  default (mkRRW NilWriter false 0 0) (heap w !! l).

Definition load (l : nat) : Go recordingResponseWriter :=
  λ w, (Returned (deref l w), w).

(** An assignment through the pointer [l]. *)
Definition assign (l : nat)
    (f : recordingResponseWriter → recordingResponseWriter) : Go unit :=
  λ w, (Returned tt,
        {| events := events w; heap := <[l := f (deref l w)]> (heap w);
           next_loc := next_loc w; rrwPool := rrwPool w;
           response := response w |}).

Definition set_writer (x : Writer) (o : recordingResponseWriter) :=
  {| writer := x; written := written o;
     writtenBytes := writtenBytes o; status := status o |}.
Definition set_written (x : bool) (o : recordingResponseWriter) :=
  {| writer := writer o; written := x;
     writtenBytes := writtenBytes o; status := status o |}.
Definition set_writtenBytes (x : Z) (o : recordingResponseWriter) :=
  {| writer := writer o; written := written o;
     writtenBytes := x; status := status o |}.
Definition set_status (x : Z) (o : recordingResponseWriter) :=
  {| writer := writer o; written := written o;
     writtenBytes := writtenBytes o; status := x |}.

(** ** The host's writer: what [next] does *)

(** The first status sent is the one that counts, a body sent without a
    status implies 200, and a hijacked connection takes no more writes. *)
Definition next_Write (b : list Byte.byte) (rw : ResponseWriter) : ResponseWriter :=
  if rw_hijacked rw then rw else
  {| rw_header := rw_header rw;
     rw_status := Some (default StatusOK (rw_status rw));
     rw_body := rw_body rw ++ b;
     rw_hijacked := rw_hijacked rw;
     rw_pushed := rw_pushed rw |}.

Definition next_WriteHeader (statusCode : Z) (rw : ResponseWriter) : ResponseWriter :=
  if rw_hijacked rw then rw else
  {| rw_header := rw_header rw;
     rw_status := Some (default statusCode (rw_status rw));
     rw_body := rw_body rw;
     rw_hijacked := rw_hijacked rw;
     rw_pushed := rw_pushed rw |}.

Definition next_HeaderSet (key value : string) (rw : ResponseWriter) : ResponseWriter :=
  {| rw_header := <[key := [value]]> (rw_header rw);
     rw_status := rw_status rw;
     rw_body := rw_body rw;
     rw_hijacked := rw_hijacked rw;
     rw_pushed := rw_pushed rw |}.

(** [ReadFrom] sends a body like [Write], and [Flush] sends the header. *)
Definition next_Flush (rw : ResponseWriter) : ResponseWriter :=
  if rw_hijacked rw then rw else
  {| rw_header := rw_header rw;
     rw_status := Some (default StatusOK (rw_status rw));
     rw_body := rw_body rw;
     rw_hijacked := rw_hijacked rw;
     rw_pushed := rw_pushed rw |}.

Definition next_Hijack (rw : ResponseWriter) : ResponseWriter :=
  {| rw_header := rw_header rw;
     rw_status := rw_status rw;
     rw_body := rw_body rw;
     rw_hijacked := true;
     rw_pushed := rw_pushed rw |}.

Definition next_Push (target : string) (rw : ResponseWriter) : ResponseWriter :=
  {| rw_header := rw_header rw;
     rw_status := rw_status rw;
     rw_body := rw_body rw;
     rw_hijacked := rw_hijacked rw;
     rw_pushed := rw_pushed rw ++ [target] |}.

Definition next (c : WriterCall) : ResponseWriter → ResponseWriter :=
  match c with
  | Write b => next_Write b
  | WriteHeader statusCode => next_WriteHeader statusCode
  | HeaderSet key value => next_HeaderSet key value
  | ReadFrom b => next_Write b
  | Flush => next_Flush
  | Hijack => next_Hijack
  | Push target => next_Push target
  end.

Definition on_response (f : ResponseWriter → ResponseWriter) : Go unit :=
  λ w, (Returned tt,
        {| events := events w; heap := heap w; next_loc := next_loc w;
           rrwPool := rrwPool w; response := f (response w) |}).

(** ** The hooks installed by [getRRW] *)

(** The [Write] hook's effect on the observer it closes over. *)
Definition hook_Write (b : list Byte.byte)
    (rrw : recordingResponseWriter) : recordingResponseWriter :=
  if negb (written rrw) then
    let rrw := set_written true rrw in
    let rrw := set_writtenBytes
                 (wrap64 (writtenBytes rrw + Z.of_nat (length b))) rrw in
    set_status StatusOK rrw
  else rrw.

(** The [WriteHeader] hook's effect on the observer it closes over. *)
Definition hook_WriteHeader (statusCode : Z)
    (rrw : recordingResponseWriter) : recordingResponseWriter :=
  if negb (written rrw) then
    let rrw := set_written true rrw in
    set_status statusCode rrw
  else rrw.

(** [getRRW] gives [httpsnoop.Wrap] two hooks; a method without a hook
    goes to the wrapped writer without the observer being touched. *)
Definition hook (c : WriterCall) : recordingResponseWriter → recordingResponseWriter :=
  match c with
  | Write b => hook_Write b
  | WriteHeader statusCode => hook_WriteHeader statusCode
  | HeaderSet _ _ | ReadFrom _ | Flush | Hijack | Push _ => λ rrw, rrw
  end.

(** The observer after a sequence of calls on the wrapped writer. *)
Definition observe (cs : list WriterCall)
    (rrw : recordingResponseWriter) : recordingResponseWriter :=
  foldl (λ o c, hook c o) rrw cs.

(** One call of the handler on the writer [wr]: a wrapped writer runs its
    hook on the observer behind [rrw] and passes the call on. *)
Fixpoint call_on (wr : Writer) (c : WriterCall) : Go unit :=
  match wr with
  | NilWriter => panic "nil pointer dereference"
  | HostWriter => on_response (next c)
  | Wrapped inner rrw => assign rrw (hook c) ;; call_on inner c
  end.

Fixpoint calls_on (wr : Writer) (cs : list WriterCall) : Go unit :=
  match cs with
  | [] => mret tt
  | c :: cs => call_on wr c ;; calls_on wr cs
  end.

(** [h.ServeHTTP(wr, r)] *)
Definition Handler_ServeHTTP (h : Handler) (wr : Writer) (r : Request) : Go HandlerRun :=
  emit (HandlerServeHTTP wr r) ;;
  calls_on wr (calls (h r)) ;;
  match panics (h r) with
  | Some v => panic v
  | None => mret (h r)
  end.

(** ** The pool *)

(** [rrwPool.Get()]: a pooled observer when there is one, else [New].
    [sync.Pool] leaves open which pooled object [Get] returns and may drop
    pooled objects; the model takes one of the behaviours it allows, the
    last object put, nothing dropped.  Which location a request gets is
    therefore particular to the model; what [getRRW] does to the observer
    at that location is not. *)
Definition rrwPool_Get : Go nat :=
  λ w, match rrwPool w with
       | l :: rest =>
           (Returned l,
            {| events := events w; heap := heap w; next_loc := next_loc w;
               rrwPool := rest; response := response w |})
       | [] =>
           (Returned (next_loc w),
            {| events := events w;
               heap := <[next_loc w := mkRRW NilWriter false 0 0]> (heap w);
               next_loc := S (next_loc w);
               rrwPool := []; response := response w |})
       end.

Definition rrwPool_Put (l : nat) : Go unit :=
  λ w, (Returned tt,
        {| events := events w; heap := heap w; next_loc := next_loc w;
           rrwPool := l :: rrwPool w; response := response w |}).

Definition getRRW (wr : Writer) : Go nat :=
  rrw ← rrwPool_Get;
  assign rrw (set_written false) ;;
  assign rrw (set_writtenBytes 0) ;;
  assign rrw (set_status 0) ;;
  assign rrw (set_writer (Wrapped wr rrw)) ;;
  mret rrw.

Definition putRRW (rrw : nat) : Go unit :=
  assign rrw (set_writer NilWriter) ;;
  rrwPool_Put rrw.

(** ** config.go *)

Record config := mkConfig {
  cfg_TracerProvider : option TracerProvider;
  cfg_MeterProvider : option MeterProvider;
  cfg_Propagators : option TextMapPropagator;
  cfg_ChiRoutes : option Routes;
  cfg_RequestMethodInSpanName : bool;
  cfg_Filter : option (Request → bool);
  cfg_DisableMeasureInflight : bool;
  cfg_DisableMeasureSize : bool;
  cfg_TraceResponseHeaderKey : string
}.

(** The zero value [config{}]. *)
Definition config_zero : config :=
  mkConfig None None None None false None false false "".

(** An [Option] is what its [apply] does to the configuration.  The
    providers, the propagators, the route table and the filter are
    interface and function values: [None] is Go's nil, which the
    [With...] functions store like any other value. *)
Definition Option := config → config.

Definition WithPropagators (propagators : option TextMapPropagator) : Option :=
  λ cfg, mkConfig (cfg_TracerProvider cfg) (cfg_MeterProvider cfg)
           propagators (cfg_ChiRoutes cfg)
           (cfg_RequestMethodInSpanName cfg) (cfg_Filter cfg)
           (cfg_DisableMeasureInflight cfg) (cfg_DisableMeasureSize cfg)
           (cfg_TraceResponseHeaderKey cfg).

Definition WithTracerProvider (provider : option TracerProvider) : Option :=
  λ cfg, mkConfig provider (cfg_MeterProvider cfg)
           (cfg_Propagators cfg) (cfg_ChiRoutes cfg)
           (cfg_RequestMethodInSpanName cfg) (cfg_Filter cfg)
           (cfg_DisableMeasureInflight cfg) (cfg_DisableMeasureSize cfg)
           (cfg_TraceResponseHeaderKey cfg).

Definition WithMeterProvider (provider : option MeterProvider) : Option :=
  λ cfg, mkConfig (cfg_TracerProvider cfg) provider
           (cfg_Propagators cfg) (cfg_ChiRoutes cfg)
           (cfg_RequestMethodInSpanName cfg) (cfg_Filter cfg)
           (cfg_DisableMeasureInflight cfg) (cfg_DisableMeasureSize cfg)
           (cfg_TraceResponseHeaderKey cfg).

Definition WithMeasureInflight (isDisabled : bool) : Option :=
  λ cfg, mkConfig (cfg_TracerProvider cfg) (cfg_MeterProvider cfg)
           (cfg_Propagators cfg) (cfg_ChiRoutes cfg)
           (cfg_RequestMethodInSpanName cfg) (cfg_Filter cfg)
           isDisabled (cfg_DisableMeasureSize cfg)
           (cfg_TraceResponseHeaderKey cfg).

Definition WithMeasureSize (isDisabled : bool) : Option :=
  λ cfg, mkConfig (cfg_TracerProvider cfg) (cfg_MeterProvider cfg)
           (cfg_Propagators cfg) (cfg_ChiRoutes cfg)
           (cfg_RequestMethodInSpanName cfg) (cfg_Filter cfg)
           (cfg_DisableMeasureInflight cfg) isDisabled
           (cfg_TraceResponseHeaderKey cfg).

Definition WithChiRoutes (routes : option Routes) : Option :=
  λ cfg, mkConfig (cfg_TracerProvider cfg) (cfg_MeterProvider cfg)
           (cfg_Propagators cfg) routes
           (cfg_RequestMethodInSpanName cfg) (cfg_Filter cfg)
           (cfg_DisableMeasureInflight cfg) (cfg_DisableMeasureSize cfg)
           (cfg_TraceResponseHeaderKey cfg).

Definition WithRequestMethodInSpanName (isActive : bool) : Option :=
  λ cfg, mkConfig (cfg_TracerProvider cfg) (cfg_MeterProvider cfg)
           (cfg_Propagators cfg) (cfg_ChiRoutes cfg)
           isActive (cfg_Filter cfg)
           (cfg_DisableMeasureInflight cfg) (cfg_DisableMeasureSize cfg)
           (cfg_TraceResponseHeaderKey cfg).

Definition WithFilter (filter : option (Request → bool)) : Option :=
  λ cfg, mkConfig (cfg_TracerProvider cfg) (cfg_MeterProvider cfg)
           (cfg_Propagators cfg) (cfg_ChiRoutes cfg)
           (cfg_RequestMethodInSpanName cfg) filter
           (cfg_DisableMeasureInflight cfg) (cfg_DisableMeasureSize cfg)
           (cfg_TraceResponseHeaderKey cfg).

Definition WithTraceResponseHeaderKey (name : string) : Option :=
  λ cfg, mkConfig (cfg_TracerProvider cfg) (cfg_MeterProvider cfg)
           (cfg_Propagators cfg) (cfg_ChiRoutes cfg)
           (cfg_RequestMethodInSpanName cfg) (cfg_Filter cfg)
           (cfg_DisableMeasureInflight cfg) (cfg_DisableMeasureSize cfg)
           name.

(** ** The middleware *)

Definition tracerName : string := "github.com/riandyrn/otelchi".

Record otelware := mkOtelware {
  serverName : string;
  tracer : Tracer;
  meter : Meter;
  recorder : metricsRecorder;
  propagators : TextMapPropagator;
  handler : Handler;
  chiRoutes : option Routes;
  reqMethodInSpanName : bool;
  filter : option (Request → bool);
  disableMeasureInflight : bool;
  disableMeasureSize : bool
}.

Definition addPrefixToSpanName (shouldAdd : bool) (prefix spanName : string) : string :=
  let spanName := if decide (spanName = "") then "/" else spanName in
  if shouldAdd && negb (String.length spanName =? 0)%nat
  then prefix +:+ " " +:+ spanName
  else spanName.

(** The value Go panics with when a nil pointer is dereferenced. *)
Definition nil_dereference : string :=
  "runtime error: invalid memory address or nil pointer dereference".

(** [chi.RouteContext(r.Context()).RoutePattern()]: in the chi version the
    module requires, [RoutePattern] reads its receiver's fields without a
    nil test, so the call panics when the routing context is nil. *)
Definition RouteContext_RoutePattern (rctx : option string) : Go string :=
  match rctx with
  | Some pattern => mret pattern
  | None => panic nil_dereference
  end.

(** [ow.tracer.Start(ctx, spanName, opts...)]: the call is recorded and
    the context that carries the new span is returned. *)
Definition tracer_Start (t : Tracer) (ctx : Context) (spanName : string)
    (opts : list SpanStartOption) : Go Context :=
  emit (TracerStart t ctx spanName opts) ;;
  mret (ContextWithSpan ctx).

Section Middleware.

(** [contrib.Version()] of the instrumentation library. *)
Variable contrib_Version : string.

(** [semconv.SpanStatusFromHTTPStatusCode] of the semantic conventions. *)
Variable SpanStatusFromHTTPStatusCode : Z → SpanCode * string.

Definition Middleware (serverName : string) (opts : list Option)
    (next : Handler) : otelware :=
  let cfg := foldl (λ cfg opt, opt cfg) config_zero opts in
  let tracerProvider := default GlobalTracerProvider (cfg_TracerProvider cfg) in
  let tracer := mkTracer tracerProvider tracerName contrib_Version in
  let meterProvider := default GlobalMeterProvider (cfg_MeterProvider cfg) in
  let meter := mkMeter meterProvider tracerName contrib_Version in
  let recorder := mkRecorder meter in
  let propagators := default GlobalTextMapPropagator (cfg_Propagators cfg) in
  {| serverName := serverName;
     tracer := tracer;
     meter := meter;
     recorder := recorder;
     propagators := propagators;
     handler := next;
     chiRoutes := cfg_ChiRoutes cfg;
     reqMethodInSpanName := cfg_RequestMethodInSpanName cfg;
     filter := cfg_Filter cfg;
     disableMeasureInflight := cfg_DisableMeasureInflight cfg;
     disableMeasureSize := cfg_DisableMeasureSize cfg |}.

(** The filter test at the head of [ServeHTTP]:
    [ow.filter != nil && !ow.filter(r)]. *)
Definition skipped (ow : otelware) (r : Request) : bool :=
  match filter ow with
  | Some f => negb (f r)
  | None => false
  end.

(** Route resolution before dispatch: [(spanName, routePattern)]. *)
Definition preresolve (ow : otelware) (r : Request) : string * string :=
  match chiRoutes ow with
  | Some routes =>
      let '(matched, pattern) := routes (Method r) (URL_Path r) in
      if matched
      then (addPrefixToSpanName (reqMethodInSpanName ow) (Method r) pattern,
            pattern)
      else ("", "")
  | None => ("", "")
  end.

(** The label set built before dispatch. *)
Definition initial_props (ow : otelware) (r : Request)
    (routePattern : string) : httpReqProperties :=
  let props := {| Service := serverName ow; ID := routePattern;
                  PMethod := Method r; Code := 0 |} in
  if decide (routePattern = "") then set_ID props (URL_Path r) else props.

Definition ServeHTTP (ow : otelware) (wr : Writer) (r : Request) : Go unit :=
  if skipped ow r then
    Handler_ServeHTTP (handler ow) wr r ;; mret tt
  else
    let ctx := ExtractedContext (propagators ow) (ReqContext r) (ReqHeader r) in
    let '(spanName, routePattern) := preresolve ow r in
    let props := initial_props ow r routePattern in
    (if negb (disableMeasureInflight ow)
     then λ rest, emit (RecordRequestsInflight ctx props 1) ;;
                  defer emit (RecordRequestsInflight ctx props (-1)) ;;
                  rest
     else λ rest, rest)
    (ctx ← tracer_Start (tracer ow) ctx spanName
             [WithAttributes (NetAttributesFromHTTPRequest "tcp" r);
              WithAttributes (EndUserAttributesFromHTTPRequest r);
              WithAttributes (HTTPServerAttributesFromHTTPRequest
                                (serverName ow) routePattern r);
              WithSpanKind SpanKindServer];
     defer emit SpanEnd ;;
     rrw ← getRRW wr;
     defer putRRW rrw ;;
     let r := WithContext r ctx in
     o ← load rrw;
     run ← Handler_ServeHTTP (handler ow) (writer o) r;
     o ← load rrw;
     let props := set_Code props (status o) in
     emit (RecordRequestDuration ctx props (elapsed run)) ;;
     (if negb (disableMeasureSize ow)
      then emit (RecordResponseSize ctx props (writtenBytes o))
      else mret tt) ;;
     (if (String.length routePattern =? 0)%nat
      then
        routePattern ← RouteContext_RoutePattern (routed run);
        emit (SpanSetAttributes (HTTPRouteKey routePattern)) ;;
        let spanName := addPrefixToSpanName (reqMethodInSpanName ow)
                          (Method r) routePattern in
        emit (SpanSetName spanName)
      else mret tt) ;;
     o ← load rrw;
     (if (0 <? status o)%Z
      then emit (SpanSetAttributes (HTTPStatusCodeKey (status o)))
      else mret tt) ;;
     o ← load rrw;
     let '(spanStatus, spanMessage) := SpanStatusFromHTTPStatusCode (status o) in
     emit (SpanSetStatus spanStatus spanMessage)).

End Middleware.

(** ** Observations on a run *)

Definition clear_events (w : World) : World :=
  {| events := []; heap := heap w; next_loc := next_loc w;
     rrwPool := rrwPool w; response := response w |}.

(** The calls one request adds to the record, in order, when the host
    hands its own writer to the middleware. *)
Definition request_trace (SS : Z → SpanCode * string) (ow : otelware)
    (r : Request) (w : World) : list Event :=
  events (ServeHTTP SS ow HostWriter r (clear_events w)).2.

(** The observer a request works with: the one [getRRW] hands out. *)
Definition acquired_loc (w : World) : nat :=
  match rrwPool w with
  | l :: _ => l
  | [] => next_loc w
  end.

Definition fresh_rrw (l : nat) : recordingResponseWriter :=
  {| writer := Wrapped HostWriter l; written := false;
     writtenBytes := 0; status := 0 |}.

(** The request as the downstream handler receives it on the traced path. *)
Definition traced_request (ow : otelware) (r : Request) : Request :=
  WithContext r
    (ContextWithSpan (ExtractedContext (propagators ow) (ReqContext r) (ReqHeader r))).

(** The observer's fields when dispatch is over. *)
Definition recorded (ow : otelware) (r : Request) (w : World) : recordingResponseWriter :=
  observe (calls (handler ow (traced_request ow r))) (fresh_rrw (acquired_loc w)).

Definition is_TracerStart (e : Event) : bool :=
  match e with TracerStart _ _ _ _ => true | _ => false end.
Definition is_SpanEnd (e : Event) : bool :=
  match e with SpanEnd => true | _ => false end.
Definition is_HandlerServeHTTP (e : Event) : bool :=
  match e with HandlerServeHTTP _ _ => true | _ => false end.
Definition is_metric (e : Event) : bool :=
  match e with
  | RecordRequestsInflight _ _ _ | RecordRequestDuration _ _ _
  | RecordResponseSize _ _ _ => true
  | _ => false
  end.
Definition is_span (e : Event) : bool :=
  match e with
  | TracerStart _ _ _ _ | SpanSetAttributes _ | SpanSetName _
  | SpanSetStatus _ _ | SpanEnd => true
  | _ => false
  end.

Definition count (f : Event → bool) (tr : list Event) : nat :=
  length (List.filter f tr).

(** The label sets and deltas of the in-flight recordings of a trace. *)
Definition inflight_calls (tr : list Event) : list (httpReqProperties * Z) :=
  omap (λ e, match e with
             | RecordRequestsInflight _ p d => Some (p, d)
             | _ => None
             end) tr.

Definition duration_labels (tr : list Event) : list httpReqProperties :=
  omap (λ e, match e with
             | RecordRequestDuration _ p _ => Some p
             | _ => None
             end) tr.

(** The label sets and values of the size recordings of a trace. *)
Definition size_calls (tr : list Event) : list (httpReqProperties * Z) :=
  omap (λ e, match e with
             | RecordResponseSize _ p n => Some (p, n)
             | _ => None
             end) tr.

Definition status_attributes (tr : list Event) : list Z :=
  omap (λ e, match e with
             | SpanSetAttributes (HTTPStatusCodeKey c) => Some c
             | _ => None
             end) tr.

Definition route_attributes (tr : list Event) : list string :=
  omap (λ e, match e with
             | SpanSetAttributes (HTTPRouteKey p) => Some p
             | _ => None
             end) tr.

Definition span_statuses (tr : list Event) : list (SpanCode * string) :=
  omap (λ e, match e with
             | SpanSetStatus c m => Some (c, m)
             | _ => None
             end) tr.

(** The names the span is given, at start and by [SetName], in order. *)
Definition span_names (tr : list Event) : list string :=
  omap (λ e, match e with
             | TracerStart _ _ n _ => Some n
             | SpanSetName n => Some n
             | _ => None
             end) tr.

(** The label sets of all metric recordings of a trace. *)
Definition metric_labels (tr : list Event) : list httpReqProperties :=
  omap (λ e, match e with
             | RecordRequestsInflight _ p _ | RecordRequestDuration _ p _
             | RecordResponseSize _ p _ => Some p
             | _ => None
             end) tr.

(** How a handler's run ends for its caller. *)
Definition outcome_of (run : HandlerRun) : Outcome HandlerRun :=
  match panics run with
  | Some v => Panicked v
  | None => Returned run
  end.

(** The total length of the [Write] calls among a handler's calls. *)
Definition body_bytes (cs : list WriterCall) : Z :=
  foldr (λ c acc, match c with
                  | Write b => (Z.of_nat (length b) + acc)%Z
                  | _ => acc
                  end) 0%Z cs.

(** The first call that goes through a hook: the first [Write] or
    [WriteHeader]. *)
Definition first_write (cs : list WriterCall) : option WriterCall :=
  head (List.filter (λ c, match c with
                          | Write _ | WriteHeader _ => true
                          | _ => false
                          end) cs).

(** How often the written flag goes from false to true along the calls. *)
Fixpoint transitions (cs : list WriterCall) (o : recordingResponseWriter) : nat :=
  match cs with
  | [] => 0
  | c :: cs =>
      (if negb (written o) && written (hook c o) then 1 else 0)
      + transitions cs (hook c o)
  end.

(** ** The in-flight instrument *)

#[global] Instance httpReqProperties_eq_dec : EqDecision httpReqProperties.
Proof. solve_decision. Defined.

#[global] Instance httpReqProperties_countable : Countable httpReqProperties.
Proof.
  refine (inj_countable'
            (λ p, (Service p, ID p, PMethod p, Code p))
            (λ t, match t with (s, i, m, c) => mkProps s i m c end) _).
  by intros [].
Defined.

(** Modelled from the spec: the recorder's in-flight instrument is an
    up/down counter keyed by the label set; [RecordRequestsInflight] adds
    its delta to the counter of its label set, and the other calls leave
    the instrument alone. *)
Definition reading (p : httpReqProperties) (m : gmap httpReqProperties Z) : Z :=
  default 0%Z (m !! p).

Definition instrument_step (m : gmap httpReqProperties Z) (e : Event)
    : gmap httpReqProperties Z :=
  match e with
  | RecordRequestsInflight _ p delta => <[p := (reading p m + delta)%Z]> m
  | _ => m
  end.

Definition instrument_after (tr : list Event) (m : gmap httpReqProperties Z)
    : gmap httpReqProperties Z :=
  foldl instrument_step m tr.

(** The net change a trace makes to the counter of the label set [p]. *)
Definition net_of (p : httpReqProperties) (cs : list (httpReqProperties * Z)) : Z :=
  foldr (λ c acc, if decide (c.1 = p) then (c.2 + acc)%Z else acc) 0%Z cs.

Definition net_inflight (p : httpReqProperties) (tr : list Event) : Z :=
  net_of p (inflight_calls tr).

(** A trace that never takes more from a counter than what is still owed:
    its recordings on [p] from any point on sum to at most zero. *)
Definition settles (p : httpReqProperties) (tr : list Event) : Prop :=
  ∀ k, (net_inflight p (drop k tr) ≤ 0)%Z.

(** Requests served at the same time: their traces are merged in some
    order that keeps the order within each request. *)
Inductive interleaving {A : Type} : list (list A) → list A → Prop :=
| interleaving_done ts :
    Forall (λ t, t = []) ts → interleaving ts []
| interleaving_step ts i x t tr :
    ts !! i = Some (x :: t) →
    interleaving (<[i := t]> ts) tr →
    interleaving ts (x :: tr).

(** ** The traced path in closed form *)

(** Whether the steps after dispatch get past the read of the routing
    context: the route was resolved before dispatch, so that nothing is
    read, or the request carries a routing context. *)
Definition completes (routePattern : string) (run : HandlerRun) : bool :=
  negb (String.length routePattern =? 0)%nat
  || match routed run with Some _ => true | None => false end.

(** How [ServeHTTP] ends on the traced path: with the handler's panic,
    with the panic of the routing-context read, or by returning. *)
Definition traced_outcome (ow : otelware) (r : Request) : Outcome unit :=
  let run := handler ow (WithContext r
               (ContextWithSpan
                  (ExtractedContext (propagators ow) (ReqContext r)
                     (ReqHeader r)))) in
  match panics run with
  | Some v => Panicked v
  | None =>
      if completes (preresolve ow r).2 run then Returned tt
      else Panicked nil_dereference
  end.

(** What [ServeHTTP] records between the handler's return and the
    deferred clean-ups. *)
Definition finalization (SS : Z → SpanCode * string) (ow : otelware)
    (r : Request) (routePattern : string) (props : httpReqProperties)
    (ctx : Context) (run : HandlerRun) (o : recordingResponseWriter)
    : list Event :=
  [RecordRequestDuration ctx (set_Code props (status o)) (elapsed run)]
  ++ (if negb (disableMeasureSize ow)
      then [RecordResponseSize ctx (set_Code props (status o)) (writtenBytes o)]
      else [])
  ++ (if completes routePattern run
      then
        (if (String.length routePattern =? 0)%nat
         then [SpanSetAttributes (HTTPRouteKey (default "" (routed run)));
               SpanSetName (addPrefixToSpanName (reqMethodInSpanName ow)
                              (Method r) (default "" (routed run)))]
         else [])
        ++ (if (0 <? status o)%Z
            then [SpanSetAttributes (HTTPStatusCodeKey (status o))]
            else [])
        ++ [SpanSetStatus (SS (status o)).1 (SS (status o)).2]
      else []).

Definition traced_events (SS : Z → SpanCode * string) (ow : otelware)
    (r : Request) (w : World) : list Event :=
  let ctx := ExtractedContext (propagators ow) (ReqContext r) (ReqHeader r) in
  let spanName := (preresolve ow r).1 in
  let routePattern := (preresolve ow r).2 in
  let props := initial_props ow r routePattern in
  let run := handler ow (traced_request ow r) in
  (if negb (disableMeasureInflight ow)
   then [RecordRequestsInflight ctx props 1] else [])
  ++ [TracerStart (tracer ow) ctx spanName
        [WithAttributes (NetAttributesFromHTTPRequest "tcp" r);
         WithAttributes (EndUserAttributesFromHTTPRequest r);
         WithAttributes (HTTPServerAttributesFromHTTPRequest
                           (serverName ow) routePattern r);
         WithSpanKind SpanKindServer];
      HandlerServeHTTP (Wrapped HostWriter (acquired_loc w))
        (traced_request ow r)]
  ++ (match panics run with
      | None => finalization SS ow (traced_request ow r) routePattern props
                  (ContextWithSpan ctx) run (recorded ow r w)
      | Some _ => []
      end)
  ++ [SpanEnd]
  ++ (if negb (disableMeasureInflight ow)
      then [RecordRequestsInflight ctx props (-1)] else []).

(** ** Sample collaborators and requests *)

(** A status mapping in the shape of the semantic conventions: 1xx to 3xx
    leave the span status unset, 4xx and 5xx are errors, anything else is
    an invalid code. *)
Definition sample_SpanStatus (code : Z) : SpanCode * string :=
  if ((100 <=? code) && (code <? 400))%Z then (Unset, "")
  else if ((400 <=? code) && (code <? 600))%Z then (Error, "")
  else (Error, "Invalid HTTP status code").

Definition sample_world : World :=
  {| events := []; heap := ∅; next_loc := 0; rrwPool := [];
     response := {| rw_header := ∅; rw_status := None; rw_body := [];
                   rw_hijacked := false; rw_pushed := [] |} |}.

Definition sample_request : Request :=
  {| Method := "GET"; URL_Path := "/users/42"; ReqHeader := ∅;
     ReqContext := HostContext 0 |}.

Definition health_request : Request :=
  {| Method := "GET"; URL_Path := "/healthz"; ReqHeader := ∅;
     ReqContext := HostContext 1 |}.

(** Writes a two-byte body twice, without an explicit status. *)
Definition two_writes : Handler :=
  λ _, {| calls := [Write [Byte.x68; Byte.x69]; Write [Byte.x68; Byte.x69]];
          panics := None; routed := Some "/users/{id}"; elapsed := 5 |}.

(** Returns without touching its writer. *)
Definition silent : Handler :=
  λ _, {| calls := []; panics := None; routed := Some "/users/{id}"; elapsed := 5 |}.

(** Sends a status, a body and a second status. *)
Definition created : Handler :=
  λ _, {| calls := [WriteHeader 201; Write [Byte.x68; Byte.x69]; WriteHeader 500];
          panics := None; routed := Some "/users/{id}"; elapsed := 5 |}.

(** Writes a body and then panics. *)
Definition crashing : Handler :=
  λ _, {| calls := [Write [Byte.x68]]; panics := Some "boom";
          routed := Some "/users/{id}"; elapsed := 5 |}.


Definition not_health : Request → bool :=
  λ r, negb (bool_decide (URL_Path r = "/healthz")).

(** A busy moment: the observer at location 0 is in use by another
    request, so the pool has to make a new one. *)
Definition busy_world : World :=
  {| events := []; heap := {[ 0%nat := fresh_rrw 0 ]}; next_loc := 1;
     rrwPool := [];
     response := {| rw_header := ∅; rw_status := None; rw_body := [];
                   rw_hijacked := false; rw_pushed := [] |} |}.

(** Middlewares to run the samples through. *)
Definition plain_ow (next : Handler) : otelware :=
  Middleware "1.20.0" "svc" [] next.


Definition filtered_ow (next : Handler) : otelware :=
  Middleware "1.20.0" "svc" [WithFilter (Some not_health)] next.

(** ** Concurrent requests *)

(** The net change of several traces together. *)
Definition total (p : httpReqProperties) (ts : list (list Event)) : Z :=
  foldr (λ t acc, (net_inflight p t + acc)%Z) 0%Z ts.

(** One schedule of two requests: they take turns, call by call. *)
Fixpoint alternate {A : Type} (a b : list A) : list A :=
  match a, b with
  | x :: a, y :: b => x :: y :: alternate a b
  | [], _ => b
  | _, [] => a
  end.

(** ** The options a caller can build *)

(** [Option]'s [apply] is unexported, so the options a caller can pass to
    [Middleware] are the results of the nine [With...] functions. *)
Inductive OptionSpec :=
| OptPropagators (propagators : option TextMapPropagator)
| OptTracerProvider (provider : option TracerProvider)
| OptMeterProvider (provider : option MeterProvider)
| OptMeasureInflight (isDisabled : bool)
| OptMeasureSize (isDisabled : bool)
| OptChiRoutes (routes : option Routes)
| OptRequestMethodInSpanName (isActive : bool)
| OptFilter (filter : option (Request → bool))
| OptTraceResponseHeaderKey (name : string).

Definition build (o : OptionSpec) : Option :=
  match o with
  | OptPropagators propagators => WithPropagators propagators
  | OptTracerProvider provider => WithTracerProvider provider
  | OptMeterProvider provider => WithMeterProvider provider
  | OptMeasureInflight isDisabled => WithMeasureInflight isDisabled
  | OptMeasureSize isDisabled => WithMeasureSize isDisabled
  | OptChiRoutes routes => WithChiRoutes routes
  | OptRequestMethodInSpanName isActive => WithRequestMethodInSpanName isActive
  | OptFilter filter => WithFilter filter
  | OptTraceResponseHeaderKey name => WithTraceResponseHeaderKey name
  end.

(** Two options are of the same kind when they come from the same
    [With...] function. *)
Definition same_kind (a b : OptionSpec) : bool :=
  match a, b with
  | OptPropagators _, OptPropagators _
  | OptTracerProvider _, OptTracerProvider _
  | OptMeterProvider _, OptMeterProvider _
  | OptMeasureInflight _, OptMeasureInflight _
  | OptMeasureSize _, OptMeasureSize _
  | OptChiRoutes _, OptChiRoutes _
  | OptRequestMethodInSpanName _, OptRequestMethodInSpanName _
  | OptFilter _, OptFilter _
  | OptTraceResponseHeaderKey _, OptTraceResponseHeaderKey _ => true
  | _, _ => false
  end.

Definition is_header_key (o : OptionSpec) : bool :=
  match o with OptTraceResponseHeaderKey _ => true | _ => false end.

(** The provider, propagators and filter in force among the options: the
    argument of the last option of the kind, which may be nil, and nil
    when there is no such option. *)
Definition given_TracerProvider (specs : list OptionSpec) : option TracerProvider :=
  mjoin (last (omap (λ o, match o with
                          | OptTracerProvider x => Some x
                          | _ => None
                          end) specs)).
Definition given_MeterProvider (specs : list OptionSpec) : option MeterProvider :=
  mjoin (last (omap (λ o, match o with
                          | OptMeterProvider x => Some x
                          | _ => None
                          end) specs)).
Definition given_Propagators (specs : list OptionSpec) : option TextMapPropagator :=
  mjoin (last (omap (λ o, match o with
                          | OptPropagators x => Some x
                          | _ => None
                          end) specs)).
Definition given_Filter (specs : list OptionSpec) : option (Request → bool) :=
  mjoin (last (omap (λ o, match o with
                          | OptFilter x => Some x
                          | _ => None
                          end) specs)).

(** The contexts the metric recordings of a trace are made under. *)
Definition inflight_contexts (tr : list Event) : list Context :=
  omap (λ e, match e with
             | RecordRequestsInflight ctx _ _ => Some ctx
             | _ => None
             end) tr.

Definition finalization_contexts (tr : list Event) : list Context :=
  omap (λ e, match e with
             | RecordRequestDuration ctx _ _ | RecordResponseSize ctx _ _ => Some ctx
             | _ => None
             end) tr.

(** A second handler for the samples: sets a header and answers 404. *)
Definition not_found : Handler :=
  λ _, {| calls := [HeaderSet "Content-Type" "text/plain"; WriteHeader 404;
                    Write [Byte.x6e; Byte.x6f]];
          panics := None; routed := Some "/*"; elapsed := 2 |}.



(** Applying options in order, from a configuration. *)
Definition configure (cfg : config) (specs : list OptionSpec) : config :=
  foldl (λ cfg opt, opt cfg) cfg (map build specs).

(** Two configurations that differ at most in the header key. *)
Definition same_but_key (a b : config) : Prop :=
  cfg_TracerProvider a = cfg_TracerProvider b
  ∧ cfg_MeterProvider a = cfg_MeterProvider b
  ∧ cfg_Propagators a = cfg_Propagators b
  ∧ cfg_ChiRoutes a = cfg_ChiRoutes b
  ∧ cfg_RequestMethodInSpanName a = cfg_RequestMethodInSpanName b
  ∧ cfg_Filter a = cfg_Filter b
  ∧ cfg_DisableMeasureInflight a = cfg_DisableMeasureInflight b
  ∧ cfg_DisableMeasureSize a = cfg_DisableMeasureSize b.



Definition quiet_ow (next : Handler) : otelware :=
  Middleware "1.20.0" "svc" [WithMeasureInflight true] next.

(** ** The observer of a request, through the writer it is bound to *)

(** The observer [getRRW] hands out in the world [w], read after the
    handler has made the calls [cs] on the writer [getRRW] bound to it. *)
Definition observer_after (w : World) (cs : list WriterCall) : recordingResponseWriter :=
  match getRRW HostWriter w with
  | (Returned rrw, w1) =>
      deref rrw (calls_on (writer (deref rrw w1)) cs w1).2
  | (Panicked _, _) => mkRRW NilWriter false 0 0
  end.

(** The written flag before the first call and after each call. *)
Definition flag_trail (w : World) (cs : list WriterCall) : list bool :=
  map (λ k, written (observer_after w (take k cs))) (seq 0 (S (length cs))).

(** How often a list of flags goes from off to on. *)
Fixpoint rises (flags : list bool) : nat :=
  match flags with
  | b :: (b' :: _) as rest => (if negb b && b' then 1 else 0) + rises rest
  | _ => 0
  end.

(** The calls that send a body. *)
Definition is_body_write (c : WriterCall) : bool :=
  match c with Write _ | ReadFrom _ => true | _ => false end.

Definition is_WriteHeader (c : WriterCall) : bool :=
  match c with WriteHeader _ => true | _ => false end.

(** A handler that copies its body through [io.ReaderFrom]. *)
Definition copying : Handler :=
  λ _, {| calls := [ReadFrom [Byte.x68; Byte.x69]]; panics := None;
          routed := Some "/users/{id}"; elapsed := 3 |}.

(** A handler reached without a chi router in front of it. *)
Definition unrouted : Handler :=
  λ _, {| calls := [Write [Byte.x68; Byte.x69]]; panics := None;
          routed := None; elapsed := 3 |}.

(** * Running the monad

    Each primitive and each library call of the middleware has an equation
    that gives its outcome and the world it leaves; [go_step] runs a body
    one call at a time with them. *)

Lemma bind_run {A B} (m : Go A) (f : A → Go B) w :
  (m ≫= f) w = match m w with
               | (Returned a, w') => f a w'
               | (Panicked v, w') => (Panicked v, w')
               end.
Proof. reflexivity. Qed.

Lemma World_eta w :
  mkWorld (events w) (heap w) (next_loc w) (rrwPool w) (response w) = w.
Proof. by destruct w. Qed.

Lemma call_on_wrapped l c w :
  call_on (Wrapped HostWriter l) c w =
  (Returned tt,
   {| events := events w; heap := <[l := hook c (deref l w)]> (heap w);
      next_loc := next_loc w; rrwPool := rrwPool w;
      response := next c (response w) |}).
Proof. reflexivity. Qed.

Lemma calls_on_wrapped l cs : ∀ w o,
  heap w !! l = Some o →
  calls_on (Wrapped HostWriter l) cs w =
  (Returned tt,
   {| events := events w; heap := <[l := observe cs o]> (heap w);
      next_loc := next_loc w; rrwPool := rrwPool w;
      response := foldl (λ rw c, next c rw) (response w) cs |}).
Proof.
  induction cs as [|c cs IH]; intros w o Hl.
  - simpl. rewrite insert_id by done. by rewrite World_eta.
  - cbn [calls_on]. rewrite bind_run, call_on_wrapped.
    erewrite IH by (simpl; apply lookup_insert_eq).
    simpl. rewrite insert_insert_eq. unfold deref. rewrite Hl. reflexivity.
Qed.

Lemma calls_on_host cs : ∀ w,
  calls_on HostWriter cs w =
  (Returned tt,
   {| events := events w; heap := heap w;
      next_loc := next_loc w; rrwPool := rrwPool w;
      response := foldl (λ rw c, next c rw) (response w) cs |}).
Proof.
  induction cs as [|c cs IH]; intros w.
  - simpl. by rewrite World_eta.
  - cbn [calls_on]. rewrite bind_run. cbn [call_on on_response]. by rewrite IH.
Qed.

Lemma getRRW_run w :
  getRRW HostWriter w =
  (Returned (acquired_loc w),
   {| events := events w;
      heap := <[acquired_loc w := fresh_rrw (acquired_loc w)]> (heap w);
      next_loc := match rrwPool w with [] => S (next_loc w) | _ => next_loc w end;
      rrwPool := tail (rrwPool w);
      response := response w |}).
Proof.
  unfold getRRW, acquired_loc. rewrite bind_run. unfold rrwPool_Get.
  destruct (rrwPool w) as [|l rest];
    unfold mbind, Go_bind, go_bind, assign, mret, Go_ret, go_ret, deref;
    simpl; rewrite ?lookup_insert_eq; simpl.
  all: rewrite !insert_insert_eq; reflexivity.
Qed.

Lemma Handler_ServeHTTP_wrapped h l r w o :
  heap w !! l = Some o →
  Handler_ServeHTTP h (Wrapped HostWriter l) r w =
  (outcome_of (h r),
   {| events := events w ++ [HandlerServeHTTP (Wrapped HostWriter l) r];
      heap := <[l := observe (calls (h r)) o]> (heap w);
      next_loc := next_loc w; rrwPool := rrwPool w;
      response := foldl (λ rw c, next c rw) (response w) (calls (h r)) |}).
Proof.
  intros Hl. unfold Handler_ServeHTTP, outcome_of.
  rewrite bind_run. cbn [emit]. rewrite bind_run.
  erewrite calls_on_wrapped by exact Hl.
  cbn [events heap next_loc rrwPool response].
  by destruct (panics (h r)).
Qed.

Lemma Handler_ServeHTTP_host h r w :
  Handler_ServeHTTP h HostWriter r w =
  (outcome_of (h r),
   {| events := events w ++ [HandlerServeHTTP HostWriter r];
      heap := heap w;
      next_loc := next_loc w; rrwPool := rrwPool w;
      response := foldl (λ rw c, next c rw) (response w) (calls (h r)) |}).
Proof.
  unfold Handler_ServeHTTP, outcome_of.
  rewrite bind_run. cbn [emit]. rewrite bind_run, calls_on_host.
  cbn [events heap next_loc rrwPool response].
  by destruct (panics (h r)).
Qed.

Lemma emit_run e w :
  emit e w = (Returned tt,
              {| events := events w ++ [e]; heap := heap w;
                 next_loc := next_loc w; rrwPool := rrwPool w;
                 response := response w |}).
Proof. reflexivity. Qed.

Lemma load_run l w : load l w = (Returned (deref l w), w).
Proof. reflexivity. Qed.

Lemma ret_run {A} (a : A) w : (mret a : Go A) w = (Returned a, w).
Proof. reflexivity. Qed.

Lemma defer_run {A} c (k : Go A) w :
  with_defer c k w = match k w with
                     | (o, w1) =>
                         match c w1 with
                         | (Returned _, w2) => (o, w2)
                         | (Panicked v, w2) => (Panicked v, w2)
                         end
                     end.
Proof. reflexivity. Qed.

Lemma putRRW_run l w :
  putRRW l w =
  (Returned tt,
   {| events := events w;
      heap := <[l := set_writer NilWriter (deref l w)]> (heap w);
      next_loc := next_loc w; rrwPool := l :: rrwPool w;
      response := response w |}).
Proof. reflexivity. Qed.

Lemma deref_insert l o ev h n p rs :
  deref l (mkWorld ev (<[l := o]> h) n p rs) = o.
Proof. unfold deref. simpl. by rewrite lookup_insert_eq. Qed.

Lemma acquired_loc_indep ev h rs w :
  acquired_loc (mkWorld ev h (next_loc w) (rrwPool w) rs) = acquired_loc w.
Proof. reflexivity. Qed.

Lemma writer_fresh l : writer (fresh_rrw l) = Wrapped HostWriter l.
Proof. reflexivity. Qed.

Lemma panic_run {A} v w : (panic v : Go A) w = (Panicked v, w).
Proof. reflexivity. Qed.

Ltac go_step :=
  cbv beta iota;
  first
    [ progress cbn [events heap next_loc rrwPool response fst snd writer]
    | rewrite acquired_loc_indep
    | rewrite writer_fresh
    | rewrite bind_run
    | rewrite defer_run
    | rewrite emit_run
    | rewrite load_run
    | rewrite ret_run
    | rewrite getRRW_run
    | rewrite putRRW_run
    | rewrite deref_insert
    | rewrite panic_run
    | erewrite Handler_ServeHTTP_wrapped by apply lookup_insert_eq ].

Lemma ServeHTTP_traced SS ow r w :
  skipped ow r = false →
  ServeHTTP SS ow HostWriter r w =
  (traced_outcome ow r,
   {| events := events w ++ traced_events SS ow r w;
      heap := <[acquired_loc w := set_writer NilWriter (recorded ow r w)]> (heap w);
      next_loc := match rrwPool w with [] => S (next_loc w) | _ => next_loc w end;
      rrwPool := acquired_loc w :: tail (rrwPool w);
      response := foldl (λ rw c, next c rw) (response w)
                    (calls (handler ow (traced_request ow r))) |}).
Proof.
  intros Hs. unfold ServeHTTP, traced_events, traced_outcome. rewrite Hs.
  destruct (preresolve ow r) as [spanName routePattern]. cbn [fst snd].
  set (ctx := ExtractedContext _ _ _).
  set (props := initial_props _ _ _).
  unfold tracer_Start.
  destruct (disableMeasureInflight ow); cbn [negb].
  all: repeat go_step.
  all: unfold outcome_of, recorded, traced_request, finalization, completes;
    fold ctx.
  all: destruct (panics _); repeat go_step.
  all: try (destruct (disableMeasureSize ow); cbn [negb]; repeat go_step).
  all: try (destruct (String.length routePattern =? 0)%nat;
            cbn [negb orb]; repeat go_step).
  all: try (destruct (routed _); cbn [RouteContext_RoutePattern default];
            repeat go_step).
  all: try (destruct (0 <? _)%Z; repeat go_step).
  all: try (destruct (SS _); repeat go_step).
  all: rewrite ?insert_insert_eq.
  all: f_equal; f_equal; rewrite <- ?app_assoc; reflexivity.
Qed.

Lemma ServeHTTP_skipped SS ow wr r w :
  skipped ow r = true →
  ServeHTTP SS ow wr r w =
  (match Handler_ServeHTTP (handler ow) wr r w with
   | (Returned _, w') => (Returned tt, w')
   | (Panicked v, w') => (Panicked v, w')
   end).
Proof. intros Hs. unfold ServeHTTP. rewrite Hs. reflexivity. Qed.

(** ** The trace of one request *)

Lemma request_trace_traced SS ow r w :
  skipped ow r = false →
  request_trace SS ow r w = traced_events SS ow r w.
Proof.
  intros Hs. unfold request_trace. by rewrite ServeHTTP_traced.
Qed.

Lemma request_trace_skipped SS ow r w :
  skipped ow r = true →
  request_trace SS ow r w = [HandlerServeHTTP HostWriter r].
Proof.
  intros Hs. unfold request_trace.
  rewrite ServeHTTP_skipped, Handler_ServeHTTP_host by done.
  unfold outcome_of. by destruct (panics _).
Qed.

Lemma ServeHTTP_events SS ow r w :
  events (ServeHTTP SS ow HostWriter r w).2 = events w ++ request_trace SS ow r w.
Proof.
  destruct (skipped ow r) eqn:Hs.
  - rewrite request_trace_skipped by done.
    rewrite ServeHTTP_skipped, Handler_ServeHTTP_host by done.
    unfold outcome_of. by destruct (panics _).
  - rewrite request_trace_traced by done. by rewrite ServeHTTP_traced.
Qed.

(** The observer is put back with the record of the handler's calls and
    without its writer. *)
Lemma ServeHTTP_observer SS ow r w :
  skipped ow r = false →
  deref (acquired_loc w) (ServeHTTP SS ow HostWriter r w).2
  = set_writer NilWriter (recorded ow r w).
Proof. intros Hs. rewrite ServeHTTP_traced by done. apply deref_insert. Qed.

(** Calls on a writer record nothing and leave the pool alone, whatever
    the writer is and however the calls end. *)
Lemma call_on_frame wr c : ∀ w,
  events (call_on wr c w).2 = events w
  ∧ rrwPool (call_on wr c w).2 = rrwPool w
  ∧ next_loc (call_on wr c w).2 = next_loc w.
Proof.
  induction wr as [| |inner IH l]; intros w; [done..|].
  cbn [call_on]. rewrite bind_run. cbn [assign].
  match goal with |- context [call_on inner c ?w0] => apply (IH w0) end.
Qed.

Lemma calls_on_frame wr cs : ∀ w,
  events (calls_on wr cs w).2 = events w
  ∧ rrwPool (calls_on wr cs w).2 = rrwPool w
  ∧ next_loc (calls_on wr cs w).2 = next_loc w.
Proof.
  induction cs as [|c cs IH]; intros w; [done|].
  cbn [calls_on]. rewrite bind_run.
  destruct (call_on_frame wr c w) as (E & P & N).
  destruct (call_on wr c w) as [[[]|v] w1]; cbn [snd] in *.
  - destruct (IH w1) as (E' & P' & N'). by rewrite E', P', N'.
  - done.
Qed.

Lemma Handler_ServeHTTP_frame h wr r w :
  events (Handler_ServeHTTP h wr r w).2 = events w ++ [HandlerServeHTTP wr r]
  ∧ rrwPool (Handler_ServeHTTP h wr r w).2 = rrwPool w
  ∧ next_loc (Handler_ServeHTTP h wr r w).2 = next_loc w.
Proof.
  unfold Handler_ServeHTTP. rewrite bind_run, emit_run, bind_run.
  match goal with |- context [calls_on wr ?cs ?w0] =>
    destruct (calls_on_frame wr cs w0) as (E & P & N);
    destruct (calls_on wr cs w0) as [[[]|v] w1] end; cbn [snd] in *.
  - by destruct (panics (h r)).
  - done.
Qed.

(** ** The response observer *)

Lemma hook_once c o : written o = true → hook c o = o.
Proof. intros H. destruct c; simpl; unfold hook_Write, hook_WriteHeader; by rewrite ?H. Qed.

Lemma observe_once cs : ∀ o, written o = true → observe cs o = o.
Proof.
  induction cs as [|c cs IH]; intros o H; [done|].
  simpl. rewrite hook_once by done. by apply IH.
Qed.

Lemma observe_cons c cs o : observe (c :: cs) o = observe cs (hook c o).
Proof. reflexivity. Qed.

Lemma observe_snoc cs c o : observe (cs ++ [c]) o = hook c (observe cs o).
Proof. unfold observe. by rewrite foldl_app. Qed.

Lemma wrap64_small z : (- 2 ^ 63 ≤ z < 2 ^ 63)%Z → wrap64 z = z.
Proof. intros H. unfold wrap64. rewrite Z.mod_small; lia. Qed.

(** From an observer that has seen nothing, the first call that goes
    through a hook decides every recorded field. *)
Lemma observe_first_write cs : ∀ o,
  written o = false →
  observe cs o =
  match first_write cs with
  | Some (Write b) =>
      {| writer := writer o; written := true;
         writtenBytes := wrap64 (writtenBytes o + Z.of_nat (length b));
         status := StatusOK |}
  | Some (WriteHeader statusCode) =>
      {| writer := writer o; written := true;
         writtenBytes := writtenBytes o; status := statusCode |}
  | _ => o
  end.
Proof.
  induction cs as [|c cs IH]; intros o H; [done|].
  rewrite observe_cons. destruct c as [b|statusCode|k v|b| | |t].
  - unfold first_write. simpl. rewrite observe_once.
    + unfold hook_Write. by rewrite H.
    + unfold hook_Write. by rewrite H.
  - unfold first_write. simpl. rewrite observe_once.
    + unfold hook_WriteHeader. by rewrite H.
    + unfold hook_WriteHeader. by rewrite H.
  - simpl. by rewrite IH.
  - simpl. by rewrite IH.
  - simpl. by rewrite IH.
  - simpl. by rewrite IH.
  - simpl. by rewrite IH.
Qed.

Lemma transitions_written cs : ∀ o, written o = true → transitions cs o = 0%nat.
Proof.
  induction cs as [|c cs IH]; intros o H; [done|].
  simpl. rewrite H. simpl. apply IH. by rewrite hook_once.
Qed.

Lemma transitions_at_most_once cs : ∀ o, (transitions cs o ≤ 1)%nat.
Proof.
  induction cs as [|c cs IH]; intros o; simpl; [lia|].
  destruct (written o) eqn:Ho.
  - simpl. apply IH.
  - destruct (written (hook c o)) eqn:Hc; simpl.
    + rewrite transitions_written by done. lia.
    + apply IH.
Qed.

(** ** The in-flight instrument *)

Lemma net_of_app p a b : net_of p (a ++ b) = (net_of p a + net_of p b)%Z.
Proof.
  induction a as [|c a IH]; simpl; [done|].
  rewrite IH. case_decide; lia.
Qed.

Lemma inflight_calls_app a b :
  inflight_calls (a ++ b) = inflight_calls a ++ inflight_calls b.
Proof. apply omap_app. Qed.

Lemma net_inflight_app p a b :
  net_inflight p (a ++ b) = (net_inflight p a + net_inflight p b)%Z.
Proof. unfold net_inflight. by rewrite inflight_calls_app, net_of_app. Qed.

Lemma net_inflight_cons p e tr :
  net_inflight p (e :: tr) = (net_inflight p [e] + net_inflight p tr)%Z.
Proof. apply (net_inflight_app p [e] tr). Qed.

Lemma reading_step p m e :
  reading p (instrument_step m e) = (reading p m + net_inflight p [e])%Z.
Proof.
  destruct e; simpl; try (unfold net_inflight; simpl; lia).
  unfold net_inflight, reading. simpl. case_decide as Hq.
  - subst. rewrite lookup_insert_eq. simpl. lia.
  - rewrite lookup_insert_ne by done. lia.
Qed.

(** The counter of a label set after a trace is its reading before plus
    the net change of the trace. *)
Lemma reading_instrument_after p tr : ∀ m,
  reading p (instrument_after tr m) = (reading p m + net_inflight p tr)%Z.
Proof.
  induction tr as [|e tr IH]; intros m.
  - unfold net_inflight. simpl. lia.
  - unfold instrument_after in *. simpl. rewrite IH, reading_step.
    rewrite (net_inflight_cons p e tr). lia.
Qed.

Lemma net_inflight_take_drop p k tr :
  net_inflight p tr = (net_inflight p (take k tr) + net_inflight p (drop k tr))%Z.
Proof. by rewrite <- net_inflight_app, take_drop. Qed.

(** ** Requests served at the same time *)

Lemma total_insert p ts : ∀ i x t,
  ts !! i = Some (x :: t) →
  total p ts = (net_inflight p [x] + total p (<[i := t]> ts))%Z.
Proof.
  induction ts as [|t0 ts IH]; intros i x t H; [done|].
  destruct i as [|i]; simpl in *.
  - injection H as ->. rewrite (net_inflight_cons p x t). lia.
  - rewrite (IH i x t H). lia.
Qed.

Lemma total_nil p ts : Forall (λ t, t = []) ts → total p ts = 0%Z.
Proof. induction 1 as [|t ts -> _ IH]; simpl; [done|]. rewrite IH. done. Qed.

Lemma interleaving_net p ts (tr : list Event) :
  interleaving ts tr → net_inflight p tr = total p ts.
Proof.
  induction 1 as [ts H|ts i x t tr Hi _ IH].
  - by rewrite total_nil.
  - rewrite (net_inflight_cons p x tr), IH. symmetry. by apply total_insert.
Qed.

Lemma total_nonpos p ts :
  Forall (settles p) ts → (total p ts ≤ 0)%Z.
Proof.
  induction 1 as [|t ts Ht _ IH]; simpl; [done|].
  specialize (Ht 0%nat). rewrite drop_0 in Ht. lia.
Qed.

Lemma settles_tail p x t : settles p (x :: t) → settles p t.
Proof. intros H k. apply (H (S k)). Qed.

Lemma interleaving_settles p ts (tr : list Event) :
  interleaving ts tr → Forall (settles p) ts → settles p tr.
Proof.
  induction 1 as [ts H|ts i x t tr Hi Hil IH]; intros Hs k.
  - rewrite drop_nil. done.
  - destruct k as [|k].
    + rewrite drop_0. rewrite (interleaving_net p ts) by (by econstructor).
      by apply total_nonpos.
    + simpl. apply IH. apply Forall_insert; [done|].
      eapply settles_tail. eapply (Forall_lookup_1 _ _ _ _ Hs Hi).
Qed.

(** When every request gives back what it took, the counter of a label
    set is never below its starting value while the requests run, and is
    back at it when they are over. *)
Lemma interleaving_never_below p ts (tr : list Event) m :
  interleaving ts tr →
  Forall (λ t, settles p t ∧ net_inflight p t = 0%Z) ts →
  (∀ k, (reading p m ≤ reading p (instrument_after (take k tr) m))%Z)
  ∧ reading p (instrument_after tr m) = reading p m.
Proof.
  intros Hil Hts.
  assert (Htot : net_inflight p tr = 0%Z).
  { rewrite (interleaving_net p ts) by done.
    clear Hil. induction Hts as [|t ts [_ Ht] _ IH]; simpl; [done|]. lia. }
  assert (Hset : settles p tr).
  { eapply interleaving_settles; [done|]. eapply Forall_impl; [done|].
    by intros t [? _]. }
  split.
  - intros k. rewrite reading_instrument_after.
    pose proof (net_inflight_take_drop p k tr). specialize (Hset k). lia.
  - rewrite reading_instrument_after. lia.
Qed.

Lemma interleaving_left {A} (a : list A) : interleaving [a; []] a.
Proof.
  induction a as [|x a IH].
  - apply interleaving_done. by repeat constructor.
  - by apply (interleaving_step _ 0%nat x a).
Qed.

Lemma interleaving_right {A} (b : list A) : interleaving [[]; b] b.
Proof.
  induction b as [|y b IH].
  - apply interleaving_done. by repeat constructor.
  - by apply (interleaving_step _ 1%nat y b).
Qed.

(** Taking turns is one way of being served at the same time. *)
Lemma interleaving_alternate {A} (a : list A) : ∀ b,
  interleaving [a; b] (alternate a b).
Proof.
  induction a as [|x a IH]; intros b.
  - destruct b; apply interleaving_right.
  - destruct b as [|y b]; [apply interleaving_left|].
    simpl. apply (interleaving_step _ 0%nat x a); [done|].
    apply (interleaving_step _ 1%nat y b); [done|]. apply IH.
Qed.

(** ** What one request records *)

Lemma omap_drop {A B} (f : A → option B) k : ∀ l,
  ∃ j, omap f (drop k l) = drop j (omap f l).
Proof.
  induction k as [|k IH]; intros l.
  - exists 0%nat. by rewrite !drop_0.
  - destruct l as [|x l]; [by exists 0%nat|].
    destruct (IH l) as [j Hj]. simpl. destruct (f x).
    + by exists (S j).
    + by exists j.
Qed.

Lemma settles_of_calls p tr :
  (∀ j, (net_of p (drop j (inflight_calls tr)) ≤ 0)%Z) → settles p tr.
Proof.
  intros H k. unfold net_inflight, inflight_calls.
  destruct (omap_drop
              (λ e, match e with
                    | RecordRequestsInflight _ p d => Some (p, d)
                    | _ => None
                    end) k tr) as [j ->].
  apply H.
Qed.

Ltac trace_cases ow :=
  unfold traced_events, finalization; cbv zeta;
  destruct (disableMeasureInflight ow); cbn [negb];
  destruct (panics _);
  try (destruct (disableMeasureSize ow); cbn [negb]);
  try destruct (completes _ _);
  try destruct (String.length _ =? 0)%nat;
  try destruct (0 <? _)%Z.

Lemma inflight_calls_traced SS ow r w :
  inflight_calls (traced_events SS ow r w) =
  if disableMeasureInflight ow then []
  else let ctx := ExtractedContext (propagators ow) (ReqContext r) (ReqHeader r) in
       let p := initial_props ow r (preresolve ow r).2 in
       [(p, 1%Z); (p, (-1)%Z)].
Proof. trace_cases ow; reflexivity. Qed.

Lemma inflight_calls_request SS ow r w :
  inflight_calls (request_trace SS ow r w) =
  if skipped ow r || disableMeasureInflight ow then []
  else let p := initial_props ow r (preresolve ow r).2 in
       [(p, 1%Z); (p, (-1)%Z)].
Proof.
  destruct (skipped ow r) eqn:Hs.
  - by rewrite request_trace_skipped.
  - rewrite request_trace_traced by done. apply inflight_calls_traced.
Qed.

(** Every request gives back what it took, on every label set. *)
Lemma request_trace_settles SS ow r w p :
  settles p (request_trace SS ow r w) ∧ net_inflight p (request_trace SS ow r w) = 0%Z.
Proof.
  split; [apply settles_of_calls; intros j|unfold net_inflight];
    rewrite inflight_calls_request;
    destruct (skipped ow r || disableMeasureInflight ow); cbv zeta.
  - by rewrite drop_nil.
  - destruct j as [|[|j]]; simpl; try case_decide; try lia.
    rewrite drop_nil. done.
  - done.
  - simpl. case_decide; lia.
Qed.

(** ** Names, the observer's record and the configuration *)

Lemma length_eqb_nonempty (s : string) :
  s ≠ "" → (String.length s =? 0)%nat = false.
Proof. by destruct s. Qed.



Lemma getRRW_fresh w :
  deref (acquired_loc w) (getRRW HostWriter w).2 = fresh_rrw (acquired_loc w).
Proof. rewrite getRRW_run. apply deref_insert. Qed.

(** The recorded byte count is the length of the first [Write] when the
    handler's first hooked call is a [Write], and zero
    otherwise. *)
Lemma recorded_writtenBytes ow r w :
  writtenBytes (recorded ow r w)
  = match first_write (calls (handler ow (traced_request ow r))) with
    | Some (Write b) => wrap64 (Z.of_nat (length b))
    | _ => 0%Z
    end.
Proof.
  unfold recorded. rewrite observe_first_write by done.
  by destruct (first_write _) as [[]|].
Qed.

(** A slice is shorter than 2^63 bytes, so the one addition never wraps. *)
Lemma recorded_writtenBytes_exact ow r w b :
  first_write (calls (handler ow (traced_request ow r))) = Some (Write b) →
  (Z.of_nat (length b) < 2 ^ 63)%Z →
  writtenBytes (recorded ow r w) = Z.of_nat (length b).
Proof.
  intros Hf Hb. rewrite recorded_writtenBytes, Hf. apply wrap64_small. lia.
Qed.

Lemma Middleware_drops_header_key version name opts key next :
  Middleware version name (opts ++ [WithTraceResponseHeaderKey key]) next
  = Middleware version name opts next.
Proof. unfold Middleware. by rewrite foldl_app. Qed.

Lemma ServeHTTP_response SS ow r w :
  skipped ow r = false →
  response (ServeHTTP SS ow HostWriter r w).2
  = foldl (λ rw c, next c rw) (response w)
      (calls (handler ow (traced_request ow r))).
Proof. intros Hs. by rewrite ServeHTTP_traced. Qed.

Lemma first_write_hooked cs c :
  first_write cs = Some c →
  match c with Write _ | WriteHeader _ => True | _ => False end.
Proof.
  unfold first_write. intros E. apply head_Some_elem_of in E.
  apply list_elem_of_In, filter_In in E. by destruct E as [_ E], c.
Qed.

(** The observer read through the bound writer is the fold of the hooks
    over the calls, from the state [getRRW] leaves. *)
Lemma observer_after_observe w cs :
  observer_after w cs = observe cs (fresh_rrw (acquired_loc w)).
Proof.
  unfold observer_after. rewrite getRRW_run, deref_insert, writer_fresh.
  erewrite calls_on_wrapped by (cbn [heap]; apply lookup_insert_eq).
  cbn [snd heap]. by rewrite insert_insert_eq, deref_insert.
Qed.

Lemma trail_cons o c cs :
  map (λ k, written (observe (take k (c :: cs)) o)) (seq 0 (S (S (length cs))))
  = written o
    :: map (λ k, written (observe (take k cs) (hook c o)))
         (seq 0 (S (length cs))).
Proof.
  change (seq 0 (S (S (length cs)))) with (0%nat :: seq 1 (S (length cs))).
  rewrite <- seq_shift, map_cons, map_map. reflexivity.
Qed.

Lemma rises_trail cs : ∀ o,
  rises (map (λ k, written (observe (take k cs) o)) (seq 0 (S (length cs))))
  = transitions cs o.
Proof.
  induction cs as [|c cs IH]; intros o; [done|].
  cbn [length]. rewrite trail_cons. cbn [transitions].
  rewrite <- IH.
  change (seq 0 (S (length cs))) with (0%nat :: seq 1 (length cs)).
  reflexivity.
Qed.

Lemma rises_flag_trail w cs :
  rises (flag_trail w cs) = transitions cs (fresh_rrw (acquired_loc w)).
Proof.
  unfold flag_trail. rewrite <- rises_trail. f_equal.
  apply map_ext. intros k. by rewrite observer_after_observe.
Qed.

(** * The claims *)

(** C1: a handler that writes two bytes twice has four body bytes, and
    the size recording of the request is passed 2, the length of the first
    write alone. *)
Theorem C1_size_is_first_write_only :
  let ow := Middleware "1.20.0" "svc" [] two_writes in
  let tr := request_trace sample_SpanStatus ow sample_request sample_world in
  size_calls tr
  = [({| Service := "svc"; ID := "/users/42"; PMethod := "GET"; Code := 200 |},
      2%Z)]
  ∧ body_bytes (calls (handler ow (traced_request ow sample_request))) = 4%Z.
Proof. split; reflexivity. Qed.

(** C2: with [WithTraceResponseHeaderKey "X-Trace-Id"] configured, the
    middleware built is the one built without the option, and after an
    accepted request the response carries no X-Trace-Id header. *)
Theorem C2_trace_header_is_never_written :
  let ow := Middleware "1.20.0" "svc"
              [WithTraceResponseHeaderKey "X-Trace-Id"] two_writes in
  let w := (ServeHTTP sample_SpanStatus ow HostWriter sample_request sample_world).2 in
  skipped ow sample_request = false
  ∧ ow = Middleware "1.20.0" "svc" [] two_writes
  ∧ rw_header (response w) !! "X-Trace-Id" = None
  ∧ rw_header (response w) = ∅.
Proof. repeat split; reflexivity. Qed.

(** C3: span finalization is complete when the handler of an accepted
    request has returned and, if the route was not resolved before
    dispatch, the request carries a routing context.  Then the recorded
    status (0 when the handler made no [Write] or [WriteHeader] call) is
    set as the status-code attribute exactly when it is greater than 0,
    and the span status set on the span is the one the semantic
    conventions derive from the recorded status, whatever it is.
    Otherwise neither is set. *)
Theorem C3_status_attribute_only_when_positive SS ow r w :
  skipped ow r = false →
  let tr := request_trace SS ow r w in
  let run := handler ow (traced_request ow r) in
  let st := status (recorded ow r w) in
  let finalized :=
    bool_decide (panics run = None) && completes (preresolve ow r).2 run in
  (first_write (calls run) = None → st = 0%Z)
  ∧ status_attributes tr = (if finalized && (0 <? st)%Z then [st] else [])
  ∧ span_statuses tr = (if finalized then [SS st] else []).
Proof.
  intros Hs tr run st finalized. unfold tr, run, st, finalized.
  rewrite request_trace_traced by done.
  split; [|split].
  - intros Hn. unfold recorded. rewrite observe_first_write by done.
    by rewrite Hn.
  - unfold traced_events, finalization; cbv zeta.
    destruct (panics _); cbn [bool_decide andb].
    + by destruct (disableMeasureInflight ow).
    + rewrite bool_decide_true by done. cbn [andb].
      destruct (disableMeasureInflight ow); cbn [negb];
        (destruct (disableMeasureSize ow); cbn [negb]);
        destruct (completes _ _); cbn [andb];
        try destruct (String.length _ =? 0)%nat;
        try destruct (0 <? _)%Z; reflexivity.
  - unfold traced_events, finalization; cbv zeta.
    destruct (SS _) as [c m] eqn:E.
    destruct (panics _); cbn [bool_decide andb].
    + by destruct (disableMeasureInflight ow).
    + rewrite bool_decide_true by done. cbn [andb].
      destruct (disableMeasureInflight ow); cbn [negb];
        (destruct (disableMeasureSize ow); cbn [negb]);
        destruct (completes _ _);
        try destruct (String.length _ =? 0)%nat;
        try destruct (0 <? _)%Z; reflexivity.
Qed.

Lemma C3_witness :
  let ow := plain_ow created in
  let tr := request_trace sample_SpanStatus ow sample_request sample_world in
  skipped ow sample_request = false
  ∧ status_attributes tr = [201%Z]
  ∧ span_statuses tr = [(Unset, "")].
Proof.
  intros ow tr.
  split; [reflexivity|].
  destruct (C3_status_attribute_only_when_positive sample_SpanStatus ow
              sample_request sample_world eq_refl)
    as (_ & A & S).
  split; [exact A|exact S].
Defined.

(** The recorded status is not always set as the status-code attribute,
    also when finalization is complete: a handler that returns without
    writing leaves it at 0, and then no status-code attribute is set. *)
Lemma C3_counterexample :
  ¬ (∀ SS ow r w,
       skipped ow r = false →
       panics (handler ow (traced_request ow r)) = None →
       is_Some (routed (handler ow (traced_request ow r))) →
       status_attributes (request_trace SS ow r w) = [status (recorded ow r w)]).
Proof.
  intros H.
  specialize (H sample_SpanStatus (Middleware "1.20.0" "svc" [] silent)
                sample_request sample_world eq_refl eq_refl
                (ex_intro _ _ eq_refl)).
  vm_compute in H. discriminate H.
Qed.

(** C4: with in-flight measurement enabled, the trace of an accepted
    request begins with the +1 recording and ends with the -1 recording,
    with the dispatch to the handler and no other in-flight recording in
    between, whether the handler returns or panics; and for requests
    served at the same time, in any interleaving of their traces, no
    counter is ever below its starting value and every counter is back at
    it when the requests are over. *)
Theorem C4_inflight_brackets_dispatch SS ow :
  disableMeasureInflight ow = false →
  (∀ r w,
     skipped ow r = false →
     ∃ ctx p mid,
       request_trace SS ow r w
         = RecordRequestsInflight ctx p 1
             :: mid ++ [RecordRequestsInflight ctx p (-1)]
       ∧ count is_HandlerServeHTTP mid = 1%nat
       ∧ inflight_calls mid = [])
  ∧ (∀ ts tr p m,
       Forall (λ t, ∃ r w, t = request_trace SS ow r w) ts →
       interleaving ts tr →
       (∀ k, (reading p m ≤ reading p (instrument_after (take k tr) m))%Z)
       ∧ reading p (instrument_after tr m) = reading p m).
Proof.
  intros Hen. split.
  - intros r w Hs. rewrite request_trace_traced by done.
    unfold traced_events; cbv zeta. rewrite Hen. cbn [negb app].
    eexists _, _, (_ :: _ :: _ ++ [SpanEnd]). split.
    + simpl. by rewrite <- app_assoc.
    + unfold finalization.
      destruct (panics _);
        try (destruct (disableMeasureSize ow); cbn [negb]);
        try destruct (completes _ _);
      try destruct (String.length _ =? 0)%nat;
        try destruct (0 <? _)%Z; by split.
  - intros ts tr p m Hts Hil.
    apply (interleaving_never_below p ts); [done|].
    eapply Forall_impl; [exact Hts|].
    intros t (r & w & ->). apply request_trace_settles.
Qed.

Lemma C4_witness :
  let p := {| Service := "svc"; ID := "/users/42"; PMethod := "GET";
              Code := 0 |} in
  let t1 := request_trace sample_SpanStatus (plain_ow crashing)
              sample_request sample_world in
  let t2 := request_trace sample_SpanStatus (plain_ow crashing)
              sample_request busy_world in
  disableMeasureInflight (plain_ow crashing) = false
  ∧ skipped (plain_ow crashing) sample_request = false
  ∧ (∃ ctx q mid,
       t1 = RecordRequestsInflight ctx q 1
              :: mid ++ [RecordRequestsInflight ctx q (-1)]
       ∧ count is_HandlerServeHTTP mid = 1%nat
       ∧ inflight_calls mid = [])
  ∧ (∀ k, (reading p ∅ ≤ reading p (instrument_after (take k (alternate t1 t2)) ∅))%Z)
  ∧ reading p (instrument_after (alternate t1 t2) ∅) = reading p ∅.
Proof.
  intros p t1 t2.
  split; [reflexivity|]. split; [reflexivity|].
  destruct (C4_inflight_brackets_dispatch sample_SpanStatus
              (plain_ow crashing) eq_refl) as [One Many].
  split; [exact (One sample_request sample_world eq_refl)|].
  apply (Many [t1; t2] (alternate t1 t2) p ∅).
  - apply Forall_cons. split; [by exists sample_request, sample_world|].
    apply Forall_cons. split; [by exists sample_request, busy_world|].
    apply Forall_nil_2.
  - apply interleaving_alternate.
Defined.

(** C5: a request accepted by the filter starts exactly one span and ends
    exactly one span, the start being the first span call and the end the
    last one; the handler's run is arbitrary, so this holds when it panics
    as well. *)
Theorem C5_one_span_opened_and_closed SS ow r w :
  skipped ow r = false →
  count is_TracerStart (request_trace SS ow r w) = 1%nat
  ∧ count is_SpanEnd (request_trace SS ow r w) = 1%nat
  ∧ ∃ pre t ctx name opts mid post,
      request_trace SS ow r w
        = pre ++ TracerStart t ctx name opts :: mid ++ SpanEnd :: post
      ∧ count is_span pre = 0%nat ∧ count is_span post = 0%nat.
Proof.
  intros Hs. rewrite request_trace_traced by done.
  split; [|split].
  - trace_cases ow; reflexivity.
  - trace_cases ow; reflexivity.
  - unfold traced_events; cbv zeta.
    eexists _, _, _, _, _, (_ :: _), _. split; [reflexivity|].
    by destruct (disableMeasureInflight ow).
Qed.

Lemma C5_witness :
  skipped (filtered_ow crashing) sample_request = false
  ∧ count is_TracerStart
      (request_trace sample_SpanStatus (filtered_ow crashing)
         sample_request sample_world) = 1%nat
  ∧ count is_SpanEnd
      (request_trace sample_SpanStatus (filtered_ow crashing)
         sample_request sample_world) = 1%nat.
Proof.
  split; [reflexivity|].
  destruct (C5_one_span_opened_and_closed sample_SpanStatus
              (filtered_ow crashing) sample_request sample_world eq_refl)
    as (S & E & _).
  split; [exact S|exact E].
Defined.

(** C6: the observer of a request is read through the writer [getRRW]
    binds to it.  Its written flag is off before the first call and goes
    from off to on at most once along the handler's calls; it is on
    exactly when there was a [Write] or a [WriteHeader]; the recorded
    status is 200 when the first of them was a [Write] and the explicit
    code when it was a [WriteHeader]; once the flag is on no further call
    changes the record; calls of the other methods leave the observer as
    it was; and the observer [ServeHTTP] puts back holds this record. *)
Theorem C6_written_flag_set_once w cs :
  written (observer_after w []) = false
  ∧ (rises (flag_trail w cs) ≤ 1)%nat
  ∧ written (observer_after w cs) = bool_decide (is_Some (first_write cs))
  ∧ status (observer_after w cs)
    = match first_write cs with
      | Some (Write _) => StatusOK
      | Some (WriteHeader statusCode) => statusCode
      | _ => 0%Z
      end
  ∧ (∀ c, written (observer_after w cs) = true →
          observer_after w (cs ++ [c]) = observer_after w cs)
  ∧ (first_write cs = None → observer_after w cs = observer_after w [])
  ∧ (∀ SS ow r,
       skipped ow r = false →
       calls (handler ow (traced_request ow r)) = cs →
       deref (acquired_loc w) (ServeHTTP SS ow HostWriter r w).2
       = set_writer NilWriter (observer_after w cs)).
Proof.
  rewrite rises_flag_trail. rewrite !observer_after_observe.
  split; [done|]. split; [apply transitions_at_most_once|].
  rewrite observe_first_write by done.
  split; [|split; [|split; [|split]]].
  - destruct (first_write cs) as [[]|] eqn:E; try done;
      by apply first_write_hooked in E.
  - by destruct (first_write cs) as [[]|].
  - intros c Hw. rewrite observer_after_observe, observe_snoc.
    rewrite observe_first_write by done. by apply hook_once.
  - by intros ->.
  - intros SS ow r Hs Hcs. rewrite ServeHTTP_observer by done.
    unfold recorded. rewrite Hcs. by rewrite observe_first_write by done.
Qed.

Lemma C6_witness :
  let cs := [WriteHeader 201; Write [Byte.x68; Byte.x69]] in
  written (observer_after sample_world cs) = true
  ∧ observer_after sample_world (cs ++ [WriteHeader 500])
    = observer_after sample_world cs
  ∧ status (observer_after sample_world cs) = 201%Z
  ∧ skipped (plain_ow created) sample_request = false
  ∧ status (deref (acquired_loc sample_world)
              (ServeHTTP sample_SpanStatus (plain_ow created) HostWriter
                 sample_request sample_world).2) = 201%Z.
Proof.
  intros cs.
  destruct (C6_written_flag_set_once sample_world cs)
    as (_ & _ & _ & S & K & _ & _).
  split; [reflexivity|]. split; [exact (K (WriteHeader 500) eq_refl)|].
  split; [exact S|]. split; [reflexivity|].
  destruct (C6_written_flag_set_once sample_world
              (calls (created (traced_request (plain_ow created)
                                 sample_request))))
    as (_ & _ & _ & _ & _ & _ & R).
  rewrite (R sample_SpanStatus (plain_ow created) sample_request
             eq_refl eq_refl).
  reflexivity.
Defined.

(** A body write does not always record the status 200: a body sent
    through [ReadFrom], with no status write before it, passes no hook,
    and the observer keeps status 0 with its flag off. *)
Lemma C6_counterexample :
  ¬ (∀ w cs,
       Exists (λ c, is_body_write c = true) cs →
       Forall (λ c, is_WriteHeader c = false) cs →
       written (observer_after w cs) = true
       ∧ status (observer_after w cs) = StatusOK).
Proof.
  intros H.
  destruct (H sample_world (calls (copying sample_request))) as [Hw _].
  - by apply Exists_cons_hd.
  - by repeat constructor.
  - vm_compute in Hw. discriminate Hw.
Qed.

(** C7: when the configured filter returns false for a request,
    [ServeHTTP] is the plain call of the downstream handler with the
    writer and the request it was given: the only call it adds to the
    record is that one, so no span is started and no metric is recorded,
    and no observer is taken from the pool, so the writer is not wrapped. *)
Theorem C7_filtered_request_bypasses SS ow wr r w f :
  filter ow = Some f →
  f r = false →
  ServeHTTP SS ow wr r w =
    (match Handler_ServeHTTP (handler ow) wr r w with
     | (Returned _, w') => (Returned tt, w')
     | (Panicked v, w') => (Panicked v, w')
     end)
  ∧ events (ServeHTTP SS ow wr r w).2 = events w ++ [HandlerServeHTTP wr r]
  ∧ rrwPool (ServeHTTP SS ow wr r w).2 = rrwPool w
  ∧ next_loc (ServeHTTP SS ow wr r w).2 = next_loc w.
Proof.
  intros Hf Hr.
  assert (Hs : skipped ow r = true) by (unfold skipped; by rewrite Hf, Hr).
  split; [by apply ServeHTTP_skipped|].
  rewrite ServeHTTP_skipped by done.
  destruct (Handler_ServeHTTP_frame (handler ow) wr r w) as (E & P & N).
  by destruct (Handler_ServeHTTP (handler ow) wr r w) as [[[]|v] w'].
Qed.

Lemma C7_witness :
  filter (filtered_ow two_writes) = Some not_health
  ∧ not_health health_request = false
  ∧ events (ServeHTTP sample_SpanStatus (filtered_ow two_writes) HostWriter
              health_request sample_world).2
    = [HandlerServeHTTP HostWriter health_request]
  ∧ rrwPool (ServeHTTP sample_SpanStatus (filtered_ow two_writes) HostWriter
               health_request sample_world).2 = [].
Proof.
  split; [reflexivity|]. split; [reflexivity|].
  destruct (C7_filtered_request_bypasses sample_SpanStatus
              (filtered_ow two_writes) HostWriter health_request sample_world
              not_health eq_refl eq_refl) as (_ & E & P & _).
  split; [exact E|exact P].
Defined.



(** C9: without a route table, or when its match fails, every metric
    recording of an accepted request has the literal path as its
    identifier, the recording before dispatch among them, and the span is
    started without a name.  Once the handler has returned, and the
    request carries a routing context, the pattern found there is set as
    the span's route attribute and the span is renamed from it; when the
    handler panics, or there is no routing context, neither happens. *)
Theorem C9_unresolved_route_falls_back_to_path SS ow r w :
  skipped ow r = false →
  (chiRoutes ow = None
   ∨ ∃ routes, chiRoutes ow = Some routes
               ∧ (routes (Method r) (URL_Path r)).1 = false) →
  let tr := request_trace SS ow r w in
  let run := handler ow (traced_request ow r) in
  Forall (λ p, ID p = URL_Path r) (metric_labels tr)
  ∧ (disableMeasureInflight ow = false →
       head (metric_labels tr)
       = Some {| Service := serverName ow; ID := URL_Path r;
                 PMethod := Method r; Code := 0 |})
  ∧ route_attributes tr
    = match panics run, routed run with
      | None, Some pattern => [pattern]
      | _, _ => []
      end
  ∧ span_names tr
    = "" :: match panics run, routed run with
            | None, Some pattern =>
                [addPrefixToSpanName (reqMethodInSpanName ow) (Method r)
                   pattern]
            | _, _ => []
            end.
Proof.
  intros Hs Hr tr run. unfold tr, run. rewrite request_trace_traced by done.
  assert (Hpre : preresolve ow r = ("", "")).
  { unfold preresolve. destruct Hr as [->|(routes & -> & Hm)]; [done|].
    destruct (routes _ _) as [matched pattern]. simpl in Hm. by subst. }
  assert (Hprops : initial_props ow r ""
                   = {| Service := serverName ow; ID := URL_Path r;
                        PMethod := Method r; Code := 0 |}) by done.
  unfold traced_events, finalization, completes; cbv zeta.
  rewrite Hpre. cbn [fst snd].
  rewrite Hprops. change (String.length "" =? 0)%nat with true.
  cbn [negb orb]. cbv iota.
  split; [|split; [|split]].
  - destruct (disableMeasureInflight ow); cbn [negb];
      destruct (panics _);
      try (destruct (disableMeasureSize ow); cbn [negb]);
      try destruct (routed _);
      try destruct (0 <? _)%Z; simpl;
      repeat (apply Forall_cons; split; [reflexivity|]); apply Forall_nil_2.
  - by intros ->.
  - destruct (disableMeasureInflight ow); cbn [negb];
      destruct (panics _);
      try (destruct (disableMeasureSize ow); cbn [negb]);
      try destruct (routed _);
      try destruct (0 <? _)%Z; reflexivity.
  - destruct (disableMeasureInflight ow); cbn [negb];
      destruct (panics _);
      try (destruct (disableMeasureSize ow); cbn [negb]);
      try destruct (routed _);
      try destruct (0 <? _)%Z; reflexivity.
Qed.

Lemma C9_witness :
  let ow := plain_ow two_writes in
  let tr := request_trace sample_SpanStatus ow sample_request sample_world in
  skipped ow sample_request = false
  ∧ chiRoutes ow = None
  ∧ Forall (λ p, ID p = "/users/42") (metric_labels tr)
  ∧ route_attributes tr = ["/users/{id}"]
  ∧ span_names tr = [""; "/users/{id}"].
Proof.
  intros ow tr.
  split; [reflexivity|]. split; [reflexivity|].
  destruct (C9_unresolved_route_falls_back_to_path sample_SpanStatus ow
              sample_request sample_world eq_refl (or_introl eq_refl))
    as (L & _ & R & N).
  split; [exact L|]. split; [exact R|exact N].
Defined.

(** The pattern of the routing context is not always set as the span's
    route attribute: when the handler panics, nothing after dispatch is
    done and no route attribute is set. *)
Lemma C9_counterexample :
  ¬ (∀ SS ow r w pattern,
       skipped ow r = false →
       chiRoutes ow = None →
       routed (handler ow (traced_request ow r)) = Some pattern →
       route_attributes (request_trace SS ow r w) = [pattern]).
Proof.
  intros H.
  specialize (H sample_SpanStatus (plain_ow crashing) sample_request
                sample_world "/users/{id}" eq_refl eq_refl eq_refl).
  vm_compute in H. discriminate H.
Qed.

(** C10: with in-flight measurement enabled, the increment and the
    decrement of an accepted request carry the same label set, the one
    built before dispatch with status code 0; the status recorded by the
    observer reaches only the labels of the duration and size recordings;
    so the request leaves the counter of every label set where it was. *)
Theorem C10_decrement_uses_increment_labels SS ow r w :
  skipped ow r = false →
  disableMeasureInflight ow = false →
  let p := initial_props ow r (preresolve ow r).2 in
  let tr := request_trace SS ow r w in
  Code p = 0%Z
  ∧ inflight_calls tr = [(p, 1%Z); (p, (-1)%Z)]
  ∧ (panics (handler ow (traced_request ow r)) = None →
       duration_labels tr = [set_Code p (status (recorded ow r w))]
       ∧ size_calls tr =
           if disableMeasureSize ow then []
           else [(set_Code p (status (recorded ow r w)),
                  writtenBytes (recorded ow r w))])
  ∧ (∀ q m, reading q (instrument_after tr m) = reading q m).
Proof.
  intros Hs Hen p tr. split; [|split; [|split]].
  - unfold p, initial_props. by case_decide.
  - unfold tr. rewrite inflight_calls_request, Hs, Hen. reflexivity.
  - intros Hp. unfold tr. rewrite request_trace_traced by done.
    unfold traced_events, finalization; cbv zeta. rewrite Hen, Hp.
    destruct (disableMeasureSize ow); cbn [negb];
      try destruct (completes _ _);
      try destruct (String.length _ =? 0)%nat;
      try destruct (0 <? _)%Z; by split.
  - intros q m. rewrite reading_instrument_after. unfold tr.
    destruct (request_trace_settles SS ow r w q) as [_ ->]. lia.
Qed.

Lemma C10_witness :
  let ow := plain_ow created in
  let p := {| Service := "svc"; ID := "/users/42"; PMethod := "GET";
              Code := 0 |} in
  let tr := request_trace sample_SpanStatus ow sample_request sample_world in
  skipped ow sample_request = false
  ∧ disableMeasureInflight ow = false
  ∧ panics (handler ow (traced_request ow sample_request)) = None
  ∧ inflight_calls tr = [(p, 1%Z); (p, (-1)%Z)]
  ∧ duration_labels tr = [set_Code p 201].
Proof.
  intros ow p tr.
  split; [reflexivity|]. split; [reflexivity|]. split; [reflexivity|].
  destruct (C10_decrement_uses_increment_labels sample_SpanStatus ow
              sample_request sample_world eq_refl eq_refl)
    as (_ & I & D & _).
  split; [exact I|]. exact (proj1 (D eq_refl)).
Defined.

(** * Further properties of the middleware *)

(** ** Span names *)

Lemma normalised_nonempty (spanName : string) :
  (if decide (spanName = "") then "/" else spanName) ≠ "".
Proof. by case_decide. Qed.

Lemma append_nonempty (a b : string) : b ≠ "" → a +:+ b ≠ "".
Proof.
  intros Hb. destruct a as [|x a]; [done|].
  change (String x (a +:+ b) ≠ ""). discriminate.
Qed.

Lemma append_assoc (a b c : string) : (a +:+ b) +:+ c = a +:+ (b +:+ c).
Proof.
  induction a as [|x a IH]; [done|].
  change (String x ((a +:+ b) +:+ c) = String x (a +:+ (b +:+ c))).
  by f_equal.
Qed.

Lemma addPrefixToSpanName_eq shouldAdd prefix spanName :
  addPrefixToSpanName shouldAdd prefix spanName
  = (if shouldAdd then prefix +:+ " " else "")
    +:+ (if decide (spanName = "") then "/" else spanName).
Proof.
  unfold addPrefixToSpanName.
  rewrite length_eqb_nonempty by apply normalised_nonempty.
  destruct shouldAdd; simpl; [|done]. symmetry. apply append_assoc.
Qed.

Lemma addPrefixToSpanName_not_empty shouldAdd prefix spanName :
  addPrefixToSpanName shouldAdd prefix spanName ≠ "".
Proof.
  rewrite addPrefixToSpanName_eq. apply append_nonempty, normalised_nonempty.
Qed.

(** X1: [addPrefixToSpanName] gives the name with an empty name replaced
    by "/", behind the prefix and a space when the prefix is asked for;
    the result is never empty, so the length test of the source never
    holds the prefix back; and without prefix the function is idempotent. *)
Theorem X1_span_name_normalised shouldAdd prefix spanName :
  addPrefixToSpanName shouldAdd prefix spanName
  = (if shouldAdd then prefix +:+ " " else "")
    +:+ (if decide (spanName = "") then "/" else spanName)
  ∧ addPrefixToSpanName shouldAdd prefix spanName ≠ ""
  ∧ addPrefixToSpanName false prefix
      (addPrefixToSpanName false prefix spanName)
    = addPrefixToSpanName false prefix spanName.
Proof.
  split; [apply addPrefixToSpanName_eq|].
  split; [apply addPrefixToSpanName_not_empty|].
  rewrite !addPrefixToSpanName_eq. simpl.
  by repeat case_decide.
Qed.

(** ** Outcome and response *)

Lemma ServeHTTP_outcome SS ow r w :
  (ServeHTTP SS ow HostWriter r w).1
  = if skipped ow r
    then match panics (handler ow r) with
         | Some v => Panicked v
         | None => Returned tt
         end
    else traced_outcome ow r.
Proof.
  destruct (skipped ow r) eqn:Hs.
  - rewrite ServeHTTP_skipped, Handler_ServeHTTP_host by done.
    unfold outcome_of. by destruct (panics _).
  - by rewrite ServeHTTP_traced.
Qed.

Lemma ServeHTTP_passes_calls SS ow r w :
  response (ServeHTTP SS ow HostWriter r w).2
  = response (Handler_ServeHTTP (handler ow) HostWriter
                (if skipped ow r then r else traced_request ow r) w).2.
Proof.
  destruct (skipped ow r) eqn:Hs.
  - rewrite ServeHTTP_skipped by done.
    by destruct (Handler_ServeHTTP _ _ _ _) as [[[]|v] w'].
  - rewrite ServeHTTP_traced, Handler_ServeHTTP_host by done. reflexivity.
Qed.

(** X2: a panic of the downstream handler leaves [ServeHTTP] as a panic
    with the handler's own value, on the traced path and on the filtered
    one.  When the handler returns, [ServeHTTP] returns, but for one case:
    on the traced path, with the route not resolved before dispatch and no
    routing context in the request, the read of the routing context
    panics. *)
Theorem X2_panic_propagates_unchanged SS ow r w :
  let r' := if skipped ow r then r else traced_request ow r in
  let unread :=
    skipped ow r || completes (preresolve ow r).2 (handler ow r') in
  (∀ v, panics (handler ow r') = Some v →
        (ServeHTTP SS ow HostWriter r w).1 = Panicked v)
  ∧ ((ServeHTTP SS ow HostWriter r w).1 = Returned tt
     ↔ panics (handler ow r') = None ∧ unread = true)
  ∧ (panics (handler ow r') = None → unread = false →
     (ServeHTTP SS ow HostWriter r w).1
     = Panicked nil_dereference).
Proof.
  intros r' unread. unfold unread, r'. rewrite ServeHTTP_outcome.
  unfold traced_outcome. fold (traced_request ow r).
  destruct (skipped ow r); cbn [orb].
  - destruct (panics (handler ow r)) as [v'|].
    + split; [by intros v [= ->]|]. split; [|done].
      split; [discriminate|]. by intros [? _].
    + split; [done|]. split; [done|]. discriminate.
  - destruct (panics (handler ow (traced_request ow r))) as [v'|].
    + split; [by intros v [= ->]|]. split; [|done].
      split; [discriminate|]. by intros [? _].
    + destruct (completes _ _).
      * split; [done|]. split; [done|]. discriminate.
      * split; [done|]. split; [|done].
        split; [discriminate|]. by intros [_ ?].
Qed.

Lemma X2_witness :
  panics (unrouted (traced_request (plain_ow unrouted) sample_request)) = None
  ∧ skipped (plain_ow unrouted) sample_request
    || completes (preresolve (plain_ow unrouted) sample_request).2
         (unrouted (traced_request (plain_ow unrouted) sample_request))
    = false
  ∧ (ServeHTTP sample_SpanStatus (plain_ow unrouted) HostWriter
       sample_request sample_world).1
    = Panicked nil_dereference
  ∧ (ServeHTTP sample_SpanStatus (plain_ow crashing) HostWriter
       sample_request sample_world).1
    = Panicked "boom".
Proof.
  split; [reflexivity|]. split; [reflexivity|].
  destruct (X2_panic_propagates_unchanged sample_SpanStatus
              (plain_ow unrouted) sample_request sample_world)
    as (_ & _ & N).
  split; [exact (N eq_refl eq_refl)|].
  destruct (X2_panic_propagates_unchanged sample_SpanStatus
              (plain_ow crashing) sample_request sample_world)
    as (P & _ & _).
  exact (P "boom" eq_refl).
Defined.

(** X3: the hooks pass every call on: the host's response after
    [ServeHTTP] is the one a direct call of the handler on the host's
    writer leaves, and the request the handler gets has the method, path
    and header of the incoming one. *)
Theorem X3_response_as_without_middleware SS ow r w :
  let r' := if skipped ow r then r else traced_request ow r in
  response (ServeHTTP SS ow HostWriter r w).2
  = response (Handler_ServeHTTP (handler ow) HostWriter r' w).2
  ∧ response (ServeHTTP SS ow HostWriter r w).2
    = foldl (λ rw c, next c rw) (response w) (calls (handler ow r'))
  ∧ Method r' = Method r ∧ URL_Path r' = URL_Path r
  ∧ ReqHeader r' = ReqHeader r.
Proof.
  intros r'. unfold r'. split; [apply ServeHTTP_passes_calls|].
  split.
  - rewrite ServeHTTP_passes_calls, Handler_ServeHTTP_host. reflexivity.
  - by destruct (skipped ow r).
Qed.

(** ** What is recorded, and when *)

(** X4: duration, size, route and status attributes and the span status
    are recorded after the handler's return and are not deferred.  A
    request whose handler panics records none of them: its span gets the
    start and the end only.  A request whose handler returns records its
    duration once; its span status is set once when the steps after
    dispatch get past the read of the routing context, and otherwise the
    span gets no attribute and no status after its start. *)
Theorem X4_finalization_only_on_return SS ow r w :
  skipped ow r = false →
  let tr := request_trace SS ow r w in
  let p := initial_props ow r (preresolve ow r).2 in
  let st := status (recorded ow r w) in
  let run := handler ow (traced_request ow r) in
  match panics run with
  | None =>
      duration_labels tr = [set_Code p st]
      ∧ span_statuses tr
        = (if completes (preresolve ow r).2 run then [SS st] else [])
      ∧ (completes (preresolve ow r).2 run = false →
         status_attributes tr = [] ∧ route_attributes tr = []
         ∧ count is_span tr = 2%nat)
  | Some _ =>
      duration_labels tr = [] ∧ size_calls tr = []
      ∧ status_attributes tr = [] ∧ route_attributes tr = []
      ∧ span_statuses tr = []
      ∧ count is_span tr = 2%nat
  end.
Proof.
  intros Hs tr p st run. unfold tr, p, st, run.
  rewrite request_trace_traced by done.
  unfold traced_events, finalization; cbv zeta.
  destruct (panics _).
  - by destruct (disableMeasureInflight ow).
  - destruct (SS _) as [c m] eqn:E.
    destruct (disableMeasureInflight ow), (disableMeasureSize ow); cbn [negb];
      destruct (completes _ _);
      try destruct (String.length _ =? 0)%nat;
      try destruct (0 <? _)%Z; by repeat split.
Qed.

(** X5: the response size is recorded once, under the labels of the
    duration recording and with the observer's byte count, when size
    measurement is enabled and the handler returns, and not at all
    otherwise. *)
Theorem X5_size_recorded_unless_disabled SS ow r w :
  skipped ow r = false →
  let tr := request_trace SS ow r w in
  let p := initial_props ow r (preresolve ow r).2 in
  size_calls tr
  = if disableMeasureSize ow
       || bool_decide (is_Some (panics (handler ow (traced_request ow r))))
    then []
    else [(set_Code p (status (recorded ow r w)),
           writtenBytes (recorded ow r w))].
Proof.
  intros Hs tr p. unfold tr, p. rewrite request_trace_traced by done.
  trace_cases ow; reflexivity.
Qed.

Lemma instrument_after_no_inflight tr : ∀ m,
  inflight_calls tr = [] → instrument_after tr m = m.
Proof.
  unfold instrument_after.
  induction tr as [|e tr IH]; intros m H; [done|].
  destruct e; simpl in *; try discriminate; by apply IH.
Qed.

(** X6: with in-flight measurement disabled no request makes an in-flight
    recording, and the instrument is left as it was. *)
Theorem X6_inflight_disabled_records_none SS ow r w m :
  disableMeasureInflight ow = true →
  inflight_calls (request_trace SS ow r w) = []
  ∧ instrument_after (request_trace SS ow r w) m = m.
Proof.
  intros Hd.
  assert (H : inflight_calls (request_trace SS ow r w) = []).
  { rewrite inflight_calls_request, Hd. by rewrite orb_true_r. }
  split; [done|]. by apply instrument_after_no_inflight.
Qed.

(** X7: the in-flight recordings are made under the context extracted
    from the request's headers, before the span exists, and the duration
    and size recordings under the context that carries the span. *)
Theorem X7_metric_contexts SS ow r w :
  skipped ow r = false →
  let ctx := ExtractedContext (propagators ow) (ReqContext r) (ReqHeader r) in
  let tr := request_trace SS ow r w in
  Forall (λ c, c = ctx) (inflight_contexts tr)
  ∧ Forall (λ c, c = ContextWithSpan ctx) (finalization_contexts tr)
  ∧ (disableMeasureInflight ow = false → length (inflight_contexts tr) = 2%nat)
  ∧ (panics (handler ow (traced_request ow r)) = None →
       finalization_contexts tr ≠ []).
Proof.
  intros Hs ctx tr. unfold tr, ctx. rewrite request_trace_traced by done.
  split; [|split; [|split]].
  - trace_cases ow; simpl; repeat constructor.
  - trace_cases ow; simpl; repeat constructor.
  - intros Hd. unfold traced_events, finalization; cbv zeta. rewrite Hd.
    cbn [negb]. destruct (panics _);
      try (destruct (disableMeasureSize ow); cbn [negb]);
      try destruct (completes _ _);
      try destruct (String.length _ =? 0)%nat;
      try destruct (0 <? _)%Z; reflexivity.
  - intros Hp. unfold traced_events, finalization; cbv zeta. rewrite Hp.
    destruct (disableMeasureInflight ow), (disableMeasureSize ow); cbn [negb];
      try destruct (completes _ _);
      try destruct (String.length _ =? 0)%nat;
      try destruct (0 <? _)%Z; discriminate.
Qed.

(** ** Route edge cases *)




(** ** The pool *)

Lemma getRRW_run_any wr w :
  getRRW wr w =
  (Returned (acquired_loc w),
   {| events := events w;
      heap := <[acquired_loc w := set_writer (Wrapped wr (acquired_loc w))
                                    (fresh_rrw (acquired_loc w))]> (heap w);
      next_loc := match rrwPool w with [] => S (next_loc w) | _ => next_loc w end;
      rrwPool := tail (rrwPool w);
      response := response w |}).
Proof.
  unfold getRRW, acquired_loc. rewrite bind_run. unfold rrwPool_Get.
  destruct (rrwPool w) as [|l rest];
    unfold mbind, Go_bind, go_bind, assign, mret, Go_ret, go_ret, deref;
    simpl; rewrite ?lookup_insert_eq; simpl.
  all: rewrite !insert_insert_eq; reflexivity.
Qed.

(** X10: [putRRW] clears the writer of the observer it releases and
    keeps the rest of its record; the observer a later [getRRW] hands out,
    whichever it is, has every field reset and the new writer bound,
    whatever it held before, and no other observer is touched. *)
Theorem X10_release_then_acquire wr l w :
  let w1 := (putRRW l w).2 in
  let w2 := (getRRW wr w1).2 in
  writer (deref l w1) = NilWriter
  ∧ written (deref l w1) = written (deref l w)
  ∧ status (deref l w1) = status (deref l w)
  ∧ writtenBytes (deref l w1) = writtenBytes (deref l w)
  ∧ ∃ rrw,
      (getRRW wr w1).1 = Returned rrw
      ∧ deref rrw w2 = {| writer := Wrapped wr rrw; written := false;
                          writtenBytes := 0; status := 0 |}
      ∧ ∀ l', l' ≠ rrw → heap w2 !! l' = heap w1 !! l'.
Proof.
  intros w1 w2. unfold w2, w1. rewrite getRRW_run_any, putRRW_run.
  cbn [fst snd]. rewrite deref_insert.
  repeat split.
  eexists. split; [reflexivity|]. split; [apply deref_insert|].
  intros l' Hl. cbn [heap]. by rewrite lookup_insert_ne.
Qed.


Lemma acquired_loc_after SS ow r w :
  acquired_loc (ServeHTTP SS ow HostWriter r w).2 = acquired_loc w.
Proof.
  destruct (skipped ow r) eqn:Hs.
  - rewrite ServeHTTP_skipped, Handler_ServeHTTP_host by done.
    unfold outcome_of. by destruct (panics _).
  - by rewrite ServeHTTP_traced.
Qed.

Lemma request_trace_loc SS ow r w1 w2 :
  acquired_loc w1 = acquired_loc w2 →
  request_trace SS ow r w1 = request_trace SS ow r w2.
Proof.
  intros H. destruct (skipped ow r) eqn:Hs.
  - by rewrite !request_trace_skipped.
  - rewrite !request_trace_traced by done.
    unfold traced_events, recorded. by rewrite H.
Qed.

(** X12: what a request records does not depend on the request served
    before it through the same pool: its trace and its observer's record
    are those it has from the earlier world. *)
Theorem X12_requests_do_not_leak SS ow1 r1 ow2 r2 w :
  let w1 := (ServeHTTP SS ow1 HostWriter r1 w).2 in
  request_trace SS ow2 r2 w1 = request_trace SS ow2 r2 w
  ∧ recorded ow2 r2 w1 = recorded ow2 r2 w.
Proof.
  intros w1. unfold w1. split.
  - apply request_trace_loc, acquired_loc_after.
  - unfold recorded. by rewrite acquired_loc_after.
Qed.

(** ** Options *)

Lemma configure_snoc cfg specs o :
  configure cfg (specs ++ [o]) = build o (configure cfg specs).
Proof. unfold configure. by rewrite map_app, foldl_app. Qed.

Lemma build_same_but_key o a b :
  same_but_key a b → same_but_key (build o a) (build o b).
Proof.
  intros (H1 & H2 & H3 & H4 & H5 & H6 & H7 & H8).
  destruct o; repeat split; simpl; assumption || reflexivity.
Qed.

Lemma configure_same_but_key specs : ∀ a b,
  same_but_key a b → same_but_key (configure a specs) (configure b specs).
Proof.
  induction specs as [|o specs IH]; intros a b H; [done|].
  apply (IH (build o a) (build o b)). by apply build_same_but_key.
Qed.

Lemma configure_without_keys specs : ∀ a b,
  same_but_key a b →
  same_but_key (configure a specs)
    (configure b (List.filter (λ o, negb (is_header_key o)) specs)).
Proof.
  induction specs as [|o specs IH]; intros a b H; [done|].
  destruct o; simpl;
    try (apply IH; by apply build_same_but_key).
  apply IH. destruct H as (H1 & H2 & H3 & H4 & H5 & H6 & H7 & H8).
  by repeat split.
Qed.

Lemma Middleware_configure version name specs next :
  Middleware version name (map build specs) next
  = let cfg := configure config_zero specs in
    {| serverName := name;
       tracer := mkTracer (default GlobalTracerProvider (cfg_TracerProvider cfg))
                   tracerName version;
       meter := mkMeter (default GlobalMeterProvider (cfg_MeterProvider cfg))
                  tracerName version;
       recorder := mkRecorder
                     (mkMeter (default GlobalMeterProvider (cfg_MeterProvider cfg))
                        tracerName version);
       propagators := default GlobalTextMapPropagator (cfg_Propagators cfg);
       handler := next;
       chiRoutes := cfg_ChiRoutes cfg;
       reqMethodInSpanName := cfg_RequestMethodInSpanName cfg;
       filter := cfg_Filter cfg;
       disableMeasureInflight := cfg_DisableMeasureInflight cfg;
       disableMeasureSize := cfg_DisableMeasureSize cfg |}.
Proof. reflexivity. Qed.

Lemma Middleware_same_but_key version name next a b :
  same_but_key (configure config_zero a) (configure config_zero b) →
  Middleware version name (map build a) next
  = Middleware version name (map build b) next.
Proof.
  intros (H1 & H2 & H3 & H4 & H5 & H6 & H7 & H8).
  rewrite !Middleware_configure. cbv zeta.
  by rewrite H1, H2, H3, H4, H5, H6, H7, H8.
Qed.

(** X14: [WithTraceResponseHeaderKey] options have no effect wherever
    they stand among the options: the middleware built is the one built
    from the other options alone. *)
Theorem X14_header_key_never_used version name specs next :
  Middleware version name (map build specs) next
  = Middleware version name
      (map build (List.filter (λ o, negb (is_header_key o)) specs)) next.
Proof.
  apply Middleware_same_but_key, configure_without_keys. by repeat split.
Qed.

Ltac last_given :=
  let specs := fresh "specs" in
  let o := fresh "o" in
  let IH := fresh "IH" in
  intros specs; induction specs as [|o specs IH] using rev_ind; intros cfg;
  [done|];
  rewrite configure_snoc, omap_app;
  destruct o; simpl; rewrite ?app_nil_r, ?last_snoc; try apply IH; done.

Lemma configure_TracerProvider : ∀ specs cfg,
  cfg_TracerProvider (configure cfg specs)
  = match last (omap (λ o, match o with
                           | OptTracerProvider x => Some x
                           | _ => None
                           end) specs) with
    | Some x => x
    | None => cfg_TracerProvider cfg
    end.
Proof. last_given. Qed.

Lemma configure_MeterProvider : ∀ specs cfg,
  cfg_MeterProvider (configure cfg specs)
  = match last (omap (λ o, match o with
                           | OptMeterProvider x => Some x
                           | _ => None
                           end) specs) with
    | Some x => x
    | None => cfg_MeterProvider cfg
    end.
Proof. last_given. Qed.

Lemma configure_Propagators : ∀ specs cfg,
  cfg_Propagators (configure cfg specs)
  = match last (omap (λ o, match o with
                           | OptPropagators x => Some x
                           | _ => None
                           end) specs) with
    | Some x => x
    | None => cfg_Propagators cfg
    end.
Proof. last_given. Qed.

Lemma configure_Filter : ∀ specs cfg,
  cfg_Filter (configure cfg specs)
  = match last (omap (λ o, match o with
                           | OptFilter x => Some x
                           | _ => None
                           end) specs) with
    | Some x => x
    | None => cfg_Filter cfg
    end.
Proof. last_given. Qed.

Lemma Middleware_filter version name specs next :
  filter (Middleware version name (map build specs) next) = given_Filter specs.
Proof.
  rewrite Middleware_configure. cbv zeta. simpl.
  rewrite configure_Filter. unfold given_Filter.
  by destruct (last _) as [[]|].
Qed.

(** X15: the tracer provider, the meter provider and the propagators of
    the middleware are the argument of the last option of the kind when
    that argument is not nil, and the global ones otherwise, that is when
    no such option is given or the last one passes nil; the recorder
    records on the middleware's meter; the filter is the argument of the
    last [WithFilter], nil included, and nil without one. *)
Theorem X15_last_option_or_global version name specs next :
  let ow := Middleware version name (map build specs) next in
  tracer_provider (tracer ow)
  = default GlobalTracerProvider (given_TracerProvider specs)
  ∧ meter_provider (meter ow)
    = default GlobalMeterProvider (given_MeterProvider specs)
  ∧ recorder_meter (recorder ow) = meter ow
  ∧ propagators ow
    = default GlobalTextMapPropagator (given_Propagators specs)
  ∧ filter ow = given_Filter specs.
Proof.
  intros ow. unfold ow. split; [|split; [|split; [|split]]].
  - rewrite Middleware_configure. cbv zeta. simpl.
    rewrite configure_TracerProvider. unfold given_TracerProvider.
    by destruct (last _) as [[]|].
  - rewrite Middleware_configure. cbv zeta. simpl.
    rewrite configure_MeterProvider. unfold given_MeterProvider.
    by destruct (last _) as [[]|].
  - done.
  - rewrite Middleware_configure. cbv zeta. simpl.
    rewrite configure_Propagators. unfold given_Propagators.
    by destruct (last _) as [[]|].
  - apply Middleware_filter.
Qed.

(** A custom provider followed by a nil one gives the global provider,
    and a filter followed by a nil one gives no filter. *)
Lemma X15_witness :
  let ow := Middleware "1.20.0" "svc"
              (map build [OptTracerProvider (Some (CustomTracerProvider 7));
                          OptFilter (Some not_health);
                          OptTracerProvider None;
                          OptMeterProvider (Some (CustomMeterProvider 3));
                          OptFilter None]) two_writes in
  tracer_provider (tracer ow) = GlobalTracerProvider
  ∧ meter_provider (meter ow) = CustomMeterProvider 3
  ∧ propagators ow = GlobalTextMapPropagator
  ∧ filter ow = None.
Proof.
  intros ow.
  destruct (X15_last_option_or_global "1.20.0" "svc"
              [OptTracerProvider (Some (CustomTracerProvider 7));
               OptFilter (Some not_health);
               OptTracerProvider None;
               OptMeterProvider (Some (CustomMeterProvider 3));
               OptFilter None] two_writes)
    as (T & M & _ & P & F).
  split; [exact T|]. split; [exact M|]. split; [exact P|exact F].
Defined.

Lemma build_compose a b cfg :
  build b (build a cfg)
  = if same_kind a b then build b cfg else build a (build b cfg).
Proof. destruct a, b; reflexivity. Qed.

Lemma configure_app cfg s1 s2 :
  configure cfg (s1 ++ s2) = configure (configure cfg s1) s2.
Proof. unfold configure. by rewrite map_app, foldl_app. Qed.

(** X16: of two neighbouring options of the same kind only the later one
    counts, and two neighbouring options of different kinds can be
    swapped, anywhere among the options. *)
Theorem X16_options_override_or_commute version name s1 a b s2 next :
  Middleware version name (map build (s1 ++ a :: b :: s2)) next
  = Middleware version name
      (map build (s1 ++ (if same_kind a b then [b] else [b; a]) ++ s2)) next.
Proof.
  assert (H : configure config_zero (s1 ++ a :: b :: s2)
              = configure config_zero
                  (s1 ++ (if same_kind a b then [b] else [b; a]) ++ s2)).
  { rewrite !configure_app.
    change (configure ?c (a :: b :: s2))
      with (configure (build b (build a c)) s2).
    rewrite build_compose. by destruct (same_kind a b). }
  rewrite !Middleware_configure. cbv zeta. by rewrite H.
Qed.

(** X17: a request starts a span exactly when the filter in force, the
    argument of the last [WithFilter], is nil (also when no [WithFilter]
    is given) or returns true for it. *)
Theorem X17_filter_decides_tracing SS version name specs next r w :
  let ow := Middleware version name (map build specs) next in
  count is_TracerStart (request_trace SS ow r w)
  = match given_Filter specs with
    | Some f => if f r then 1%nat else 0%nat
    | None => 1%nat
    end.
Proof.
  intros ow.
  assert (Hf : filter ow = given_Filter specs) by apply Middleware_filter.
  assert (Hs : skipped ow r
               = match given_Filter specs with
                 | Some f => negb (f r)
                 | None => false
                 end) by (unfold skipped; by rewrite Hf).
  destruct (given_Filter specs) as [f|]; [destruct (f r)|]; simpl in Hs.
  - rewrite request_trace_traced by done. trace_cases ow; reflexivity.
  - by rewrite request_trace_skipped.
  - rewrite request_trace_traced by done. trace_cases ow; reflexivity.
Qed.

(** A rejecting filter followed by a nil filter: the request is traced. *)
Lemma X17_witness :
  count is_TracerStart
    (request_trace sample_SpanStatus
       (Middleware "1.20.0" "svc"
          (map build [OptFilter (Some (λ _, false)); OptFilter None])
          two_writes)
       sample_request sample_world) = 1%nat
  ∧ count is_TracerStart
      (request_trace sample_SpanStatus
         (Middleware "1.20.0" "svc"
            (map build [OptFilter None; OptFilter (Some (λ _, false))])
            two_writes)
         sample_request sample_world) = 0%nat.
Proof.
  split.
  - exact (X17_filter_decides_tracing sample_SpanStatus "1.20.0" "svc"
             [OptFilter (Some (λ _, false)); OptFilter None] two_writes
             sample_request sample_world).
  - exact (X17_filter_decides_tracing sample_SpanStatus "1.20.0" "svc"
             [OptFilter None; OptFilter (Some (λ _, false))] two_writes
             sample_request sample_world).
Defined.

(** ** The byte count *)

Lemma body_bytes_nonneg cs : (0 ≤ body_bytes cs)%Z.
Proof. induction cs as [|[] cs IH]; simpl; lia. Qed.

Lemma first_write_body cs b :
  first_write cs = Some (Write b) →
  (Z.of_nat (length b) ≤ body_bytes cs)%Z.
Proof.
  induction cs as [|[b'|c|k v|b'| | |t] cs IH]; unfold first_write; simpl;
    try done.
  intros [= ->]. pose proof (body_bytes_nonneg cs). lia.
Qed.

(** X18: when every body write is shorter than 2^63 bytes, as a Go slice
    is, the recorded byte count is between 0 and the total length of the
    body writes. *)
Theorem X18_size_never_over_counts ow r w :
  Forall (λ c, match c with
               | Write b => (Z.of_nat (length b) < 2 ^ 63)%Z
               | _ => True
               end) (calls (handler ow (traced_request ow r))) →
  (0 ≤ writtenBytes (recorded ow r w)
   ≤ body_bytes (calls (handler ow (traced_request ow r))))%Z.
Proof.
  intros Hb. rewrite recorded_writtenBytes.
  pose proof (body_bytes_nonneg (calls (handler ow (traced_request ow r)))).
  destruct (first_write _) as [[b|c|k v|b| | |t]|] eqn:E; try lia.
  assert (Hlen : (Z.of_nat (length b) < 2 ^ 63)%Z).
  { unfold first_write in E. apply head_Some_elem_of in E.
    apply list_elem_of_In, filter_In in E. destruct E as [E _].
    apply list_elem_of_In in E.
    by apply (proj1 (Forall_forall _ _) Hb _ E). }
  rewrite wrap64_small by lia.
  pose proof (first_write_body _ _ E). lia.
Qed.

(** ** A middleware inside a middleware *)

Lemma call_on_stacked l1 l2 c w :
  call_on (Wrapped (Wrapped HostWriter l1) l2) c w =
  (Returned tt,
   {| events := events w;
      heap := <[l1 := hook c (deref l1
                 {| events := events w;
                    heap := <[l2 := hook c (deref l2 w)]> (heap w);
                    next_loc := next_loc w; rrwPool := rrwPool w;
                    response := response w |})]>
                (<[l2 := hook c (deref l2 w)]> (heap w));
      next_loc := next_loc w; rrwPool := rrwPool w;
      response := next c (response w) |}).
Proof. reflexivity. Qed.

Lemma calls_on_stacked l1 l2 cs : ∀ w o1 o2,
  l1 ≠ l2 →
  heap w !! l1 = Some o1 →
  heap w !! l2 = Some o2 →
  calls_on (Wrapped (Wrapped HostWriter l1) l2) cs w =
  (Returned tt,
   {| events := events w;
      heap := <[l1 := observe cs o1]> (<[l2 := observe cs o2]> (heap w));
      next_loc := next_loc w; rrwPool := rrwPool w;
      response := foldl (λ rw c, next c rw) (response w) cs |}).
Proof.
  induction cs as [|c cs IH]; intros w o1 o2 Hne H1 H2.
  - simpl. rewrite (insert_id _ l2 o2) by done.
    rewrite insert_id by done. by rewrite World_eta.
  - cbn [calls_on]. rewrite bind_run, call_on_stacked.
    unfold deref. cbn [heap].
    rewrite H2. cbn [default]. rewrite lookup_insert_ne by done.
    rewrite H1. cbn [default].
    erewrite (IH _ (hook c o1) (hook c o2)); [|done|..].
    + cbn [events heap next_loc rrwPool response]. simpl.
      f_equal. f_equal.
      apply map_eq. intros i. rewrite !lookup_insert.
      repeat case_decide; congruence.
    + cbn [heap]. apply lookup_insert_eq.
    + cbn [heap]. rewrite lookup_insert_ne by done. apply lookup_insert_eq.
Qed.

Lemma Handler_ServeHTTP_stacked h l1 l2 r w o1 o2 :
  l1 ≠ l2 →
  heap w !! l1 = Some o1 →
  heap w !! l2 = Some o2 →
  Handler_ServeHTTP h (Wrapped (Wrapped HostWriter l1) l2) r w =
  (outcome_of (h r),
   {| events := events w
                ++ [HandlerServeHTTP (Wrapped (Wrapped HostWriter l1) l2) r];
      heap := <[l1 := observe (calls (h r)) o1]>
                (<[l2 := observe (calls (h r)) o2]> (heap w));
      next_loc := next_loc w; rrwPool := rrwPool w;
      response := foldl (λ rw c, next c rw) (response w) (calls (h r)) |}).
Proof.
  intros Hne H1 H2. unfold Handler_ServeHTTP, outcome_of.
  rewrite bind_run. cbn [emit]. rewrite bind_run.
  erewrite calls_on_stacked by (done || exact H1 || exact H2).
  cbn [events heap next_loc rrwPool response].
  by destruct (panics (h r)).
Qed.

Ltac go_step_stacked H1 :=
  cbv beta iota;
  first
    [ progress cbn [events heap next_loc rrwPool response fst snd writer
                    set_writer]
    | rewrite acquired_loc_indep
    | rewrite bind_run
    | rewrite defer_run
    | rewrite emit_run
    | rewrite load_run
    | rewrite ret_run
    | rewrite getRRW_run_any
    | rewrite putRRW_run
    | rewrite deref_insert
    | rewrite panic_run
    | erewrite Handler_ServeHTTP_stacked;
      [|done
       |cbn [heap]; rewrite lookup_insert_ne by done; exact H1
       |cbn [heap]; apply lookup_insert_eq] ].

Lemma ServeHTTP_stacked SS ow r w l1 o1 :
  skipped ow r = false →
  l1 ≠ acquired_loc w →
  heap w !! l1 = Some o1 →
  let l2 := acquired_loc w in
  let cs := calls (handler ow (traced_request ow r)) in
  let w' := (ServeHTTP SS ow (Wrapped HostWriter l1) r w).2 in
  deref l1 w' = observe cs o1
  ∧ deref l2 w'
    = set_writer NilWriter
        (observe cs (set_writer (Wrapped (Wrapped HostWriter l1) l2)
                       (fresh_rrw l2)))
  ∧ response w' = foldl (λ rw c, next c rw) (response w) cs.
Proof.
  intros Hs Hne H1 l2 cs w'. unfold w', cs, l2, ServeHTTP. rewrite Hs.
  destruct (preresolve ow r) as [spanName routePattern].
  unfold tracer_Start, traced_request.
  destruct (disableMeasureInflight ow); cbn [negb].
  all: repeat go_step_stacked H1.
  all: unfold outcome_of.
  all: destruct (panics _); repeat go_step_stacked H1.
  all: try (destruct (disableMeasureSize ow); cbn [negb];
            repeat go_step_stacked H1).
  all: try (destruct (String.length routePattern =? 0)%nat;
            repeat go_step_stacked H1).
  all: try (destruct (routed _); cbn [RouteContext_RoutePattern];
            repeat go_step_stacked H1).
  all: try (destruct (0 <? _)%Z; repeat go_step_stacked H1).
  all: try (destruct (SS _); repeat go_step_stacked H1).
  all: unfold deref; cbn [heap].
  all: repeat split; rewrite ?lookup_insert;
    repeat (case_decide; try congruence); done.
Qed.

(** X19: when the writer handed to [ServeHTTP] is itself the wrapped
    writer of an enclosing middleware, whose observer has not seen a write
    yet, the enclosing observer ends with the record of the handler's
    calls, the same written flag, status and byte count as the inner one,
    and the host's response is the one the handler's calls leave. *)
Theorem X19_outer_observer_sees_through SS ow r w l1 o1 :
  skipped ow r = false →
  l1 ≠ acquired_loc w →
  heap w !! l1 = Some o1 →
  written o1 = false → status o1 = 0%Z → writtenBytes o1 = 0%Z →
  let w' := (ServeHTTP SS ow (Wrapped HostWriter l1) r w).2 in
  deref l1 w' = observe (calls (handler ow (traced_request ow r))) o1
  ∧ written (deref l1 w') = written (deref (acquired_loc w) w')
  ∧ status (deref l1 w') = status (deref (acquired_loc w) w')
  ∧ writtenBytes (deref l1 w') = writtenBytes (deref (acquired_loc w) w')
  ∧ response w'
    = foldl (λ rw c, next c rw) (response w)
        (calls (handler ow (traced_request ow r))).
Proof.
  intros Hs Hne H1 Hw Hst Hb w'.
  destruct (ServeHTTP_stacked SS ow r w l1 o1 Hs Hne H1) as (E1 & E2 & E3).
  fold w' in E1, E2, E3. rewrite E1, E2.
  split; [done|]. rewrite !observe_first_write by done.
  repeat split; try done;
    destruct (first_write _) as [[]|]; simpl; by rewrite ?Hst, ?Hb.
Qed.

(** ** The further properties on sample requests *)

Lemma X4_witness :
  let ow := plain_ow crashing in
  let tr := request_trace sample_SpanStatus ow sample_request sample_world in
  skipped ow sample_request = false
  ∧ duration_labels tr = [] ∧ size_calls tr = []
  ∧ status_attributes tr = [] ∧ route_attributes tr = []
  ∧ span_statuses tr = []
  ∧ count is_span tr = 2%nat.
Proof.
  intros ow tr. split; [reflexivity|].
  exact (X4_finalization_only_on_return sample_SpanStatus ow
           sample_request sample_world eq_refl).
Defined.

Lemma X5_witness :
  let ow := plain_ow not_found in
  let tr := request_trace sample_SpanStatus ow sample_request sample_world in
  skipped ow sample_request = false
  ∧ size_calls tr
    = [({| Service := "svc"; ID := "/users/42"; PMethod := "GET";
           Code := 404 |}, 0%Z)].
Proof.
  intros ow tr. split; [reflexivity|].
  exact (X5_size_recorded_unless_disabled sample_SpanStatus ow
           sample_request sample_world eq_refl).
Defined.

Lemma X6_witness :
  let ow := quiet_ow two_writes in
  let tr := request_trace sample_SpanStatus ow sample_request sample_world in
  disableMeasureInflight ow = true
  ∧ inflight_calls tr = []
  ∧ instrument_after tr ∅ = ∅.
Proof.
  intros ow tr. split; [reflexivity|].
  exact (X6_inflight_disabled_records_none sample_SpanStatus ow
           sample_request sample_world ∅ eq_refl).
Defined.

Lemma X7_witness :
  let ow := plain_ow two_writes in
  let ctx := ExtractedContext GlobalTextMapPropagator (HostContext 0) ∅ in
  let tr := request_trace sample_SpanStatus ow sample_request sample_world in
  skipped ow sample_request = false
  ∧ disableMeasureInflight ow = false
  ∧ panics (handler ow (traced_request ow sample_request)) = None
  ∧ Forall (λ c, c = ctx) (inflight_contexts tr)
  ∧ Forall (λ c, c = ContextWithSpan ctx) (finalization_contexts tr)
  ∧ length (inflight_contexts tr) = 2%nat
  ∧ finalization_contexts tr ≠ [].
Proof.
  intros ow ctx tr.
  split; [reflexivity|]. split; [reflexivity|]. split; [reflexivity|].
  destruct (X7_metric_contexts sample_SpanStatus ow sample_request
              sample_world eq_refl) as (I & F & L & N).
  split; [exact I|]. split; [exact F|].
  split; [exact (L eq_refl)|exact (N eq_refl)].
Defined.




Lemma X18_witness :
  let ow := plain_ow two_writes in
  let cs := calls (handler ow (traced_request ow sample_request)) in
  Forall (λ c, match c with
               | Write b => (Z.of_nat (length b) < 2 ^ 63)%Z
               | _ => True
               end) cs
  ∧ (0 ≤ writtenBytes (recorded ow sample_request sample_world)
     ≤ body_bytes cs)%Z.
Proof.
  intros ow cs.
  assert (H : Forall (λ c, match c with
                           | Write b => (Z.of_nat (length b) < 2 ^ 63)%Z
                           | _ => True
                           end) cs)
    by (repeat constructor).
  split; [exact H|].
  exact (X18_size_never_over_counts ow sample_request sample_world H).
Defined.

Lemma X19_witness :
  let ow := plain_ow created in
  let w' := (ServeHTTP sample_SpanStatus ow (Wrapped HostWriter 0)
               sample_request busy_world).2 in
  skipped ow sample_request = false
  ∧ (0%nat ≠ acquired_loc busy_world)
  ∧ heap busy_world !! 0%nat = Some (fresh_rrw 0)
  ∧ status (deref 0 w') = 201%Z
  ∧ status (deref 0 w') = status (deref (acquired_loc busy_world) w').
Proof.
  intros ow w'.
  split; [reflexivity|]. split; [exact (O_S 0)|]. split; [reflexivity|].
  destruct (X19_outer_observer_sees_through sample_SpanStatus ow
              sample_request busy_world 0%nat (fresh_rrw 0)
              eq_refl (O_S 0) eq_refl eq_refl eq_refl eq_refl)
    as (E & _ & S & _).
  split; [|exact S].
  unfold w'. rewrite E. reflexivity.
Defined.
